(** * hpsahba: the BMIC passthrough command builder, the error dump, the
      controller report and the command line driver of [main.c].

    The development follows [main.c] function by function.  Machine
    integers are [Z] with the wrap-around of every store written out,
    byte arrays are lists, the two output streams are strings that only
    grow, and the calls into the kernel ([open], [ioctl], [close]) and
    into libc ([getopt], [strerror], the diagnostic of [assert]) are
    answered by an explicit environment. *)

From Stdlib Require Import ZArith List Lia Bool Ascii String DecimalString.
Import ListNotations.

Local Open Scope string_scope.
Local Open Scope Z_scope.

(** ** Machine integers *)

Definition UINT16_MAX : Z := 65535.

(** Conversion to an unsigned type of [w] bits. *)
Definition to_unsigned (w : Z) (x : Z) : Z := x mod 2 ^ w.

Definition u8 : Z -> Z := to_unsigned 8.
Definition u16 : Z -> Z := to_unsigned 16.
Definition u32 : Z -> Z := to_unsigned 32.

(** ** Constants of the headers

    [main.c] includes [hpsa.h] and [linux/cciss_ioctl.h].  Neither is
    part of the translated sources, so their constants are the fields of
    a class; the laws say that each constant fits the storage the
    program puts it in, and that the two [case] labels of [fill_cmd]
    differ (C rejects a [switch] with a repeated label). *)

Class hpsa_h : Type := {
  BMIC_READ : Z;
  BMIC_WRITE : Z;
  BMIC_IDENTIFY_CONTROLLER : Z;
  BMIC_SENSE_CONTROLLER_PARAMETERS : Z;
  XFER_READ : Z;
  XFER_WRITE : Z;
  TYPE_CMD : Z;
  ATTR_SIMPLE : Z;
  (** [sizeof(info->SenseInfo)] *)
  SENSEINFOBYTES : nat;
  (** index of the bit that [YET_MORE_CTLR_FLAG_HBA_MODE_SUPP] selects *)
  HBA_MODE_SUPP_BIT : Z;
  VENDOR_ID_LEN : nat;
  PRODUCT_ID_LEN : nat;
  SOFTWARE_NAME_LEN : nat;
  HARDWARE_NAME_LEN : nat;
  FIRMWARE_REV_LEN : nat;
  MAX_STR_BUF_LEN : nat;
  (** [sizeof(struct bmic_identify_controller)] *)
  sizeof_identify_controller : Z;
  (** [sizeof(struct bmic_controller_parameters)] *)
  sizeof_controller_parameters : Z;

  BMIC_READ_byte : 0 <= BMIC_READ < 256;
  BMIC_WRITE_byte : 0 <= BMIC_WRITE < 256;
  BMIC_IDENTIFY_CONTROLLER_byte : 0 <= BMIC_IDENTIFY_CONTROLLER < 256;
  BMIC_SENSE_CONTROLLER_PARAMETERS_byte :
    0 <= BMIC_SENSE_CONTROLLER_PARAMETERS < 256;
  case_labels_differ :
    BMIC_IDENTIFY_CONTROLLER <> BMIC_SENSE_CONTROLLER_PARAMETERS;
  XFER_READ_fits : 0 <= XFER_READ < 4;
  XFER_WRITE_fits : 0 <= XFER_WRITE < 4;
  TYPE_CMD_fits : 0 <= TYPE_CMD < 8;
  ATTR_SIMPLE_fits : 0 <= ATTR_SIMPLE < 8;
  HBA_MODE_SUPP_BIT_range : 0 <= HBA_MODE_SUPP_BIT < 32;
  (** the scratch buffer of [print_info_str_buf] holds every field *)
  VENDOR_ID_LEN_fits : (VENDOR_ID_LEN <= MAX_STR_BUF_LEN)%nat;
  PRODUCT_ID_LEN_fits : (PRODUCT_ID_LEN <= MAX_STR_BUF_LEN)%nat;
  SOFTWARE_NAME_LEN_fits : (SOFTWARE_NAME_LEN <= MAX_STR_BUF_LEN)%nat;
  HARDWARE_NAME_LEN_fits : (HARDWARE_NAME_LEN <= MAX_STR_BUF_LEN)%nat;
  FIRMWARE_REV_LEN_fits : (FIRMWARE_REV_LEN <= MAX_STR_BUF_LEN)%nat;
  sizeof_identify_controller_pos : 0 < sizeof_identify_controller;
  sizeof_controller_parameters_pos : 0 < sizeof_controller_parameters
}.

(** [#define YET_MORE_CTLR_FLAG_HBA_MODE_SUPP (1 << n)] *)
Definition YET_MORE_CTLR_FLAG_HBA_MODE_SUPP `{hpsa_h} : Z :=
  Z.shiftl 1 HBA_MODE_SUPP_BIT.

(** ** The passthrough command of [linux/cciss_ioctl.h] *)

(** [ErrorInfo_struct]: a byte, a byte, a 16-bit and a 32-bit field, and
    the sense buffer. *)
Record ErrorInfo_struct : Type := {
  ScsiStatus : Z;
  SenseLen : Z;
  CommandStatus : Z;
  ResidualCnt : Z;
  SenseInfo : list Z
}.

(** [RequestBlock_struct]; the bit-field struct [Type] is flattened into
    [Type_Type] (3 bits), [Type_Attribute] (3 bits) and [Type_Direction]
    (2 bits). *)
Record RequestBlock_struct : Type := {
  CDBLen : Z;
  Type_Type : Z;
  Type_Attribute : Z;
  Type_Direction : Z;
  Timeout : Z;
  CDB : list Z
}.

(** [IOCTL_Command_struct] without [LUN_info], which [main.c] never
    touches.  [buf] is the address of the caller's buffer. *)
Record IOCTL_Command_struct : Type := {
  Request : RequestBlock_struct;
  error_info : ErrorInfo_struct;
  buf_size : Z;
  buf : Z
}.

(** [IOCTL_Command_struct cmd = {0};] *)
Definition zero_error_info `{hpsa_h} : ErrorInfo_struct :=
  {| ScsiStatus := 0; SenseLen := 0; CommandStatus := 0; ResidualCnt := 0;
     SenseInfo := repeat 0 SENSEINFOBYTES |}.

Definition zero_request : RequestBlock_struct :=
  {| CDBLen := 0; Type_Type := 0; Type_Attribute := 0; Type_Direction := 0;
     Timeout := 0; CDB := repeat 0 16%nat |}.

Definition zero_cmd `{hpsa_h} : IOCTL_Command_struct :=
  {| Request := zero_request; error_info := zero_error_info;
     buf_size := 0; buf := 0 |}.

(** [a[i] = v] on an array held as a list. Every index the program uses
    is a constant below the array's length. *)
Fixpoint store (a : list Z) (i : nat) (v : Z) : list Z :=
  match a, i with
  | [], _ => []
  | _ :: t, O => v :: t
  | h :: t, S j => h :: store t j v
  end.

(** [a[i]] *)
Definition load (a : list Z) (i : nat) : Z := nth i a 0.

Definition set_CDB (r : RequestBlock_struct) (cdb : list Z) :=
  {| CDBLen := CDBLen r; Type_Type := Type_Type r;
     Type_Attribute := Type_Attribute r; Type_Direction := Type_Direction r;
     Timeout := Timeout r; CDB := cdb |}.

Definition set_Request (c : IOCTL_Command_struct) (r : RequestBlock_struct) :=
  {| Request := r; error_info := error_info c;
     buf_size := buf_size c; buf := buf c |}.

(** ** Assertions *)

(** A function that contains [assert] either returns or stops the
    process through [abort()]; [NDEBUG] is undefined at the top of
    [main.c], so the assertions are always compiled in. *)
Inductive checked (A : Type) : Type :=
| Returns (a : A)
| AssertionFailed (expr : string).
Arguments Returns {A} a.
Arguments AssertionFailed {A} expr.

Definition bind_checked {A B} (c : checked A) (k : A -> checked B)
  : checked B :=
  match c with
  | Returns a => k a
  | AssertionFailed e => AssertionFailed e
  end.

(** ** The command builder *)

Section Builder.
Context `{hpsa_h}.

(** [set_cdb_buf_size]: [size] is a [size_t]; the two stores are byte
    stores. *)
Definition set_cdb_buf_size (cdb : list Z) (size : Z) : checked (list Z) :=
  if size <=? UINT16_MAX then
    let cdb := store cdb 7 (u8 (Z.shiftr size 8)) in
    let cdb := store cdb 8 (u8 (Z.land size 255)) in
    Returns cdb
  else AssertionFailed "size <= UINT16_MAX".

(** [set_cmd_buf]: [buf_size] is a [WORD], a 16-bit store. *)
Definition set_cmd_buf (cmd : IOCTL_Command_struct) (buf : Z) (size : Z)
  : checked IOCTL_Command_struct :=
  bind_checked (set_cdb_buf_size (CDB (Request cmd)) size) (fun cdb =>
  Returns {| Request := set_CDB (Request cmd) cdb;
             error_info := error_info cmd;
             buf_size := u16 size;
             buf := buf |}).

(** The [switch] of [fill_cmd]: it leaves [direction_write] at 0 for the
    two labels and asserts 0 in the default case. *)
Definition direction_of (cmd_num : Z) : checked Z :=
  if (cmd_num =? BMIC_IDENTIFY_CONTROLLER)
     || (cmd_num =? BMIC_SENSE_CONTROLLER_PARAMETERS)
  then Returns 0
  else AssertionFailed "0".

(** [fill_cmd] *)
Definition fill_cmd (cmd : IOCTL_Command_struct) (cmd_num : Z) (buf : Z)
    (size : Z) : checked IOCTL_Command_struct :=
  bind_checked (direction_of cmd_num) (fun direction_write =>
  let r := Request cmd in
  let r := set_CDB r (store (CDB r) 6 (u8 cmd_num)) in
  let r :=
    if direction_write =? 0 then
      {| CDBLen := CDBLen r; Type_Type := Type_Type r;
         Type_Attribute := Type_Attribute r;
         Type_Direction := to_unsigned 2 XFER_READ;
         Timeout := Timeout r;
         CDB := store (CDB r) 0 (u8 BMIC_READ) |}
    else
      {| CDBLen := CDBLen r; Type_Type := Type_Type r;
         Type_Attribute := Type_Attribute r;
         Type_Direction := to_unsigned 2 XFER_WRITE;
         Timeout := Timeout r;
         CDB := store (CDB r) 0 (u8 BMIC_WRITE) |} in
  bind_checked (set_cmd_buf (set_Request cmd r) buf size) (fun cmd =>
  let r := Request cmd in
  let r :=
    {| CDBLen := u8 10;
       Type_Type := to_unsigned 3 TYPE_CMD;
       Type_Attribute := to_unsigned 3 ATTR_SIMPLE;
       Type_Direction := Type_Direction r;
       Timeout := u16 0;
       CDB := CDB r |} in
  Returns (set_Request cmd r))).

(** The opcodes that [fill_cmd] knows. *)
Definition recognized (cmd_num : Z) : Prop :=
  cmd_num = BMIC_IDENTIFY_CONTROLLER \/
  cmd_num = BMIC_SENSE_CONTROLLER_PARAMETERS.

(** The command [fill_cmd] returns for a known opcode and a size that
    passes the assertion, field by field. *)
Definition filled (cmd : IOCTL_Command_struct) (cmd_num buf size : Z)
  : IOCTL_Command_struct :=
  {| Request :=
       {| CDBLen := u8 10;
          Type_Type := to_unsigned 3 TYPE_CMD;
          Type_Attribute := to_unsigned 3 ATTR_SIMPLE;
          Type_Direction := to_unsigned 2 XFER_READ;
          Timeout := u16 0;
          CDB := store (store (store (store (CDB (Request cmd)) 6 (u8 cmd_num))
                                 0 (u8 BMIC_READ))
                          7 (u8 (Z.shiftr size 8)))
                   8 (u8 (Z.land size 255)) |};
     error_info := error_info cmd;
     buf_size := u16 size;
     buf := buf |}.

(** The 16-bit big-endian number held in bytes 7 and 8 of a CDB. *)
Definition cdb_buf_size (cdb : list Z) : Z :=
  Z.lor (Z.shiftl (load cdb 7) 8) (load cdb 8).

End Builder.

(** ** Text *)

(** The character with code [b mod 256]. *)
Definition char_of_byte (b : Z) : ascii := ascii_of_N (Z.to_N (b mod 256)).

(** The text [%s] prints for a C string given by its bytes. *)
Fixpoint string_of_bytes (bs : list Z) : string :=
  match bs with
  | [] => EmptyString
  | b :: t => String (char_of_byte b) (string_of_bytes t)
  end.

(** [%d] and [%u]. *)
Definition fmt_d (z : Z) : string :=
  DecimalString.NilZero.string_of_int (Z.to_int z).

(** [%c]: the argument is converted to [unsigned char]. *)
Definition fmt_c (z : Z) : string := String (char_of_byte z) EmptyString.

Definition hex_digit (d : Z) : ascii :=
  match d with
  | 0 => "0" | 1 => "1" | 2 => "2" | 3 => "3" | 4 => "4" | 5 => "5"
  | 6 => "6" | 7 => "7" | 8 => "8" | 9 => "9" | 10 => "a" | 11 => "b"
  | 12 => "c" | 13 => "d" | 14 => "e" | _ => "f"
  end%char.

(** The [n] low hexadecimal digits of [z], most significant first. *)
Fixpoint hex_digits (n : nat) (z : Z) : string :=
  match n with
  | O => EmptyString
  | S k => hex_digits k (z / 16) ++ String (hex_digit (z mod 16)) EmptyString
  end.

(** How many hexadecimal digits [z] needs. *)
Definition hex_size (z : Z) : nat := Z.to_nat (Z.log2 z / 4 + 1).

(** [%0<width>x] on an unsigned value: every digit of the value, padded
    with zeros on the left up to [width]. *)
Definition fmt_0x (width : nat) (z : Z) : string :=
  hex_digits (Nat.max width (hex_size z)) z.

(** [isspace] in the "C" locale: space and the five controls from
    horizontal tab to carriage return. *)
Definition isspace (c : Z) : bool :=
  (c =? 32) || ((9 <=? c) && (c <=? 13)).

(** ** The response records of [hpsa.h]

    A response buffer is the sequence of bytes the controller returned;
    a field is read at its offset.  [hpsa.h] fixes the offsets, so they
    are parameters here. *)

Class hpsa_layout : Type := {
  offsetof_vendor_id : nat;
  offsetof_product_id : nat;
  offsetof_board_id : nat;
  offsetof_running_firm_rev : nat;
  offsetof_rom_firm_rev : nat;
  offsetof_rec_rom_inactive_rev : nat;
  offsetof_yet_more_controller_flags : nat;
  offsetof_software_name : nat;
  offsetof_hardware_name : nat
}.

(** The [len] bytes of a buffer from offset [off] on, each read as an
    [unsigned char]. *)
Definition field (off len : nat) (b : list Z) : list Z :=
  map (fun i => u8 (load b (off + i))) (seq 0 len).

(** [le32toh] of a 32-bit field: whatever the order of the host, the
    result is the number whose least significant byte is stored first. *)
Definition le32toh_field (off : nat) (b : list Z) : Z :=
  Z.lor (u8 (load b off))
    (Z.lor (Z.shiftl (u8 (load b (off + 1))) 8)
       (Z.lor (Z.shiftl (u8 (load b (off + 2))) 16)
          (Z.shiftl (u8 (load b (off + 3))) 24))).

(** The bytes that store a 32-bit number least significant byte first. *)
Definition le32_bytes (x : Z) : list Z :=
  [u8 x; u8 (Z.shiftr x 8); u8 (Z.shiftr x 16); u8 (Z.shiftr x 24)].

Section Response.
Context `{hpsa_h} `{hpsa_layout}.

(** [is_hba_mode_supported] *)
Definition is_hba_mode_supported (controller_id : list Z) : Z :=
  let f := le32toh_field offsetof_yet_more_controller_flags controller_id in
  if Z.land f YET_MORE_CTLR_FLAG_HBA_MODE_SUPP =? 0 then 0 else 1.

End Response.

(** ** Trimming *)

(** [while (isspace( *str)) str++;] The end of the list is the
    terminating NUL, which is not a space. *)
Fixpoint skip_leading (str : list Z) : list Z :=
  match str with
  | [] => []
  | c :: t => if isspace c then skip_leading t else str
  end.

(** [for (i = strlen(str); i && isspace(str[i - 1]); i--) str[i - 1] = 0;]
    Writing NUL at [i - 1], the last character, cuts the string there. *)
Fixpoint strip_trailing (i : nat) (str : list Z) : list Z :=
  match i with
  | O => str
  | S j => if isspace (load str j) then strip_trailing j (firstn j str)
           else str
  end.

(** [trim] on the characters of a C string. *)
Definition trim (str : list Z) : list Z :=
  let str := skip_leading str in
  strip_trailing (List.length str) str.

(** The characters of the C string that [strncpy(str, str_buf, n)] leaves
    in a zeroed buffer longer than [n]: those of [str_buf] up to its
    first NUL, [n] at most. *)
Fixpoint until_nul (bs : list Z) : list Z :=
  match bs with
  | [] => []
  | b :: t => if b =? 0 then [] else b :: until_nul t
  end.

Definition strncpy (str_buf : list Z) (n : nat) : list Z :=
  until_nul (firstn n str_buf).

(** ** The process and its host *)

Definition nl : string := String (ascii_of_nat 10) EmptyString.
Definition tab : string := String (ascii_of_nat 9) EmptyString.

(** How many lines a text ends: the number of its newline characters. *)
Fixpoint lines_ended (text : string) : nat :=
  match text with
  | EmptyString => O
  | String c t =>
      ((if Ascii.eqb c (ascii_of_nat 10) then 1 else 0) + lines_ended t)%nat
  end.

(** [O_RDWR] of [fcntl.h] on Linux. *)
Definition O_RDWR : Z := 2.

(** The system calls the process made, oldest first, each with the value
    it returned. *)
Inductive syscall : Type :=
| open_call (path : string) (flags : Z) (ret : Z)
| ioctl_call (fd : Z) (cmd : IOCTL_Command_struct) (ret : Z)
| close_call (fd : Z) (ret : Z).

(** What the process has written and done so far. *)
Record world : Type := {
  stdout : string;
  stderr : string;
  errno : Z;
  calls : list syscall
}.

Definition initial_world : world :=
  {| stdout := ""; stderr := ""; errno := 0; calls := [] |}.

(** One return of [getopt(argc, argv, ":hvi:")] other than the final -1,
    with the values it leaves in [optarg] and [optopt].  [optarg] matters
    for the option i only, and [getopt] returns that option only with an
    argument to point [optarg] at; otherwise, with this option string,
    it returns a colon. *)
Record getopt_return : Type := {
  opt : Z;
  optarg : string;
  optopt : Z
}.

(** What [ioctl(fd, CCISS_PASSTHRU, &cmd)] answers: its return value, the
    [errno] it leaves, the [error_info] it puts in the command and the
    bytes it leaves in the command's buffer. *)
Record ioctl_answer : Type := {
  ioctl_rc : Z;
  ioctl_errno : Z;
  ioctl_error_info : ErrorInfo_struct;
  ioctl_data : list Z
}.

(** Everything outside [main.c] that a run depends on.  The kernel may
    answer a call according to all the calls before it. *)
Record host : Type := {
  argv0 : string;
  argc : Z;
  (** the successive returns of [getopt] before it returns -1 *)
  getopt_returns : list getopt_return;
  (** [optind] once [getopt] has returned -1 *)
  optind : Z;
  (** [open(path, flags)]: the descriptor or -1, and [errno] *)
  sys_open : list syscall -> string -> Z -> Z * Z;
  (** [ioctl] on a command whose buffer holds the given bytes *)
  sys_ioctl : list syscall -> Z -> IOCTL_Command_struct -> list Z
              -> ioctl_answer;
  (** [close(fd)]: the return value and [errno] *)
  sys_close : list syscall -> Z -> Z * Z;
  strerror : Z -> string;
  (** the addresses of the two local structs of [print_info] *)
  addr_controller_id : Z;
  addr_controller_params : Z;
  (** the line that libc's [assert] writes to the error stream when the
      assertion on the given expression fails: program name, file, line,
      function and expression; each of the two assertions of [main.c]
      has an expression of its own *)
  assert_diagnostic : string -> string
}.

(** How a computation of the process ends: it returns to its caller, or
    the process is gone through [exit(status)], or through a failed
    assertion. *)
Inductive outcome (A : Type) : Type :=
| Return (a : A)
| Exit (status : Z)
| Abort (expr : string).
Arguments Return {A} a.
Arguments Exit {A} status.
Arguments Abort {A} expr.

Definition proc (A : Type) : Type := world -> outcome A * world.

Definition ret {A} (a : A) : proc A := fun w => (Return a, w).

Definition bind {A B} (c : proc A) (k : A -> proc B) : proc B :=
  fun w =>
    match c w with
    | (Return a, w') => k a w'
    | (Exit s, w') => (Exit s, w')
    | (Abort e, w') => (Abort e, w')
    end.

Declare Scope proc_scope.
Delimit Scope proc_scope with proc.
Notation "x <- c ;; k" := (bind c (fun x => k))
  (at level 61, c at next level, right associativity) : proc_scope.
Notation "c ;; k" := (bind c (fun _ => k))
  (at level 61, right associativity) : proc_scope.
Local Open Scope proc_scope.

(** [fprintf(stdout, ...)] and [fprintf(stderr, ...)] with the text
    already formatted. *)
Definition print_out (text : string) : proc unit :=
  fun w => (Return tt,
            {| stdout := stdout w ++ text; stderr := stderr w;
               errno := errno w; calls := calls w |}).

Definition print_err (text : string) : proc unit :=
  fun w => (Return tt,
            {| stdout := stdout w; stderr := stderr w ++ text;
               errno := errno w; calls := calls w |}).

Definition exit {A} (status : Z) : proc A := fun w => (Exit status, w).

(** A failed [assert]: libc writes its diagnostic to the error stream,
    then the process aborts. *)
Definition assert_ok {A} (diagnostic : string -> string) (c : checked A)
  : proc A :=
  fun w =>
    match c with
    | Returns a => (Return a, w)
    | AssertionFailed e =>
        (Abort e,
         {| stdout := stdout w; stderr := stderr w ++ diagnostic e;
            errno := errno w; calls := calls w |})
    end.

(** [%s] of a [const char *]; glibc prints a null pointer as (null). *)
Definition fmt_s (s : option string) : string :=
  match s with
  | Some s => s
  | None => "(null)"
  end.

(** [really_die] with its text already formatted. *)
Definition really_die {A} (text : string) : proc A :=
  print_err text ;; exit 1.

(** [die(format, ...)] *)
Definition die {A} (message : string) : proc A :=
  really_die ("FATAL ERROR: " ++ message ++ nl).

(** [die_dev(path, format, ...)] *)
Definition die_dev {A} (path : option string) (message : string) : proc A :=
  die (fmt_s path ++ ": " ++ message).

Section Program.
Context `{hpsa_h} `{hpsa_layout} (h : host).

(** [die_dev_errno(path, format, ...)] *)
Definition die_dev_errno {A} (path : option string) (message : string)
  : proc A :=
  fun w =>
    die_dev path
      (message ++ ": " ++ fmt_d (errno w) ++ " " ++ strerror h (errno w)) w.

Definition hpsahba_version : string := "0.0.0".

(** The text of [print_help]. *)
Definition help_text (exe_name : string) : string :=
    ("hpsahba version " ++ hpsahba_version ++ ", Copyright (C) 2018  "
       ++ "Ivan Mironov <mironov.ivan@gmail.com>" ++ nl
     ++ nl
     ++ "Usage:" ++ nl
     ++ tab ++ exe_name ++ " -h" ++ nl
     ++ tab ++ exe_name ++ " -v" ++ nl
     ++ tab ++ exe_name ++ " -i /dev/sgN" ++ nl
     ++ nl
     ++ "Options:" ++ nl
     ++ tab ++ "-h" ++ nl
     ++ tab ++ tab ++ "Print this help message and exit." ++ nl
     ++ nl
     ++ tab ++ "-v" ++ nl
     ++ tab ++ tab ++ "Print version number and exit." ++ nl
     ++ nl
     ++ tab ++ "-i <device path>" ++ nl
     ++ tab ++ tab ++ "Get information about HP Smart Array controller."
     ++ nl).

(** [print_help] *)
Definition print_help (exe_name : string) : proc unit :=
  print_err (help_text exe_name).

(** [print_version] *)
Definition print_version : proc unit :=
  print_out (hpsahba_version ++ nl).

(** [open_dev] *)
Definition open_dev (path : string) : proc Z :=
  fd <- (fun w =>
           let '(fd, e) := sys_open h (calls w) path O_RDWR in
           (Return fd,
            {| stdout := stdout w; stderr := stderr w; errno := e;
               calls := (calls w ++ [open_call path O_RDWR fd])%list |})) ;;
  if fd =? -1 then die_dev_errno (Some path) "Unable to open device r/w"
  else ret fd.

(** [close_dev] *)
Definition close_dev (path : option string) (fd : Z) : proc unit :=
  rc <- (fun w =>
           let '(rc, e) := sys_close h (calls w) fd in
           (Return rc,
            {| stdout := stdout w; stderr := stderr w; errno := e;
               calls := (calls w ++ [close_call fd rc])%list |})) ;;
  if rc =? 0 then ret tt else die_dev_errno path "close() failed".

(** The [for] loop of [print_cmd_error]: [n] iterations are left and the
    next index is [i]. *)
Fixpoint sense_bytes (info : ErrorInfo_struct) (n : nat) (i : nat) : string :=
  match n with
  | O => ""
  | S k => " 0x" ++ fmt_0x 2 (u8 (load (SenseInfo info) i))
             ++ sense_bytes info k (S i)
  end.

(** [print_cmd_error]; every field is read at its C type. *)
Definition print_cmd_error (info : ErrorInfo_struct) : proc unit :=
  let sense_len := u8 (SenseLen info) in
  print_err
    ("HPSA SCSI error info:" ++ nl
     ++ tab ++ "ScsiStatus: 0x" ++ fmt_0x 2 (u8 (ScsiStatus info)) ++ nl
     ++ tab ++ "SenseLen: " ++ fmt_d (u8 (SenseLen info)) ++ nl
     ++ tab ++ "CommandStatus: 0x" ++ fmt_0x 4 (u16 (CommandStatus info)) ++ nl
     ++ tab ++ "ResidualCnt: 0x" ++ fmt_0x 8 (u32 (ResidualCnt info)) ++ nl
     ++ tab ++ "SenseInfo:") ;;
  (if sense_len =? 0 then print_err " <none>"
   else
     let sense_len :=
       if sense_len >? Z.of_nat SENSEINFOBYTES then Z.of_nat SENSEINFOBYTES
       else sense_len in
     print_err (sense_bytes info (Z.to_nat sense_len) 0)) ;;
  print_err nl.

(** [really_exec_cmd]; [data] is what the buffer at [buf] holds, and the
    result is what it holds afterwards. *)
Definition really_exec_cmd (path : option string) (fd : Z) (cmd_num : Z)
    (cmd_name : string) (buf : Z) (data : list Z) (size : Z)
  : proc (list Z) :=
  cmd <- assert_ok (assert_diagnostic h)
           (fill_cmd zero_cmd cmd_num buf size) ;;
  a <- (fun w =>
          let a := sys_ioctl h (calls w) fd cmd data in
          (Return a,
           {| stdout := stdout w; stderr := stderr w;
              errno := ioctl_errno a;
              calls :=
                (calls w ++ [ioctl_call fd cmd (ioctl_rc a)])%list |})) ;;
  let rc := ioctl_rc a in
  (if rc =? 0 then ret tt
   else die_dev_errno path
          ("ioctl(CCISS_PASSTHRU) failed with command " ++ cmd_name
           ++ ", rc == " ++ fmt_d rc)) ;;
  (if u16 (CommandStatus (ioctl_error_info a)) =? 0 then ret tt
   else print_cmd_error (ioctl_error_info a) ;;
        die_dev path ("Command " ++ cmd_name ++ " failed")) ;;
  ret (ioctl_data a).

(** [identify_controller] *)
Definition identify_controller (path : option string) (fd : Z)
    (controller_id : list Z) : proc (list Z) :=
  really_exec_cmd path fd BMIC_IDENTIFY_CONTROLLER "BMIC_IDENTIFY_CONTROLLER"
    (addr_controller_id h) controller_id sizeof_identify_controller.

(** [sense_controller_parameters] *)
Definition sense_controller_parameters (path : option string) (fd : Z)
    (controller_params : list Z) : proc (list Z) :=
  really_exec_cmd path fd BMIC_SENSE_CONTROLLER_PARAMETERS
    "BMIC_SENSE_CONTROLLER_PARAMETERS"
    (addr_controller_params h) controller_params
    sizeof_controller_parameters.

(** [print_info_str_buf] *)
Definition print_info_str_buf (var_name : string) (str_buf : list Z)
    (max_str_len : nat) : proc unit :=
  let str := strncpy str_buf max_str_len in
  print_out (var_name ++ "='" ++ string_of_bytes (trim str) ++ "'" ++ nl).

(** [print_info_fw_rev] *)
Definition print_info_fw_rev (var_name : string) (rev_buf : list Z)
  : proc unit :=
  print_info_str_buf var_name rev_buf FIRMWARE_REV_LEN.

(** The ten [printf] calls of [print_info]. *)
Definition print_report (controller_id controller_params : list Z)
  : proc unit :=
  print_info_str_buf "VENDOR_ID"
    (field offsetof_vendor_id VENDOR_ID_LEN controller_id) VENDOR_ID_LEN ;;
  print_info_str_buf "PRODUCT_ID"
    (field offsetof_product_id PRODUCT_ID_LEN controller_id) PRODUCT_ID_LEN ;;
  print_out ("BOARD_ID='0x"
             ++ fmt_0x 8 (le32toh_field offsetof_board_id controller_id)
             ++ "'" ++ nl) ;;
  print_info_str_buf "SOFTWARE_NAME"
    (field offsetof_software_name SOFTWARE_NAME_LEN controller_params)
    SOFTWARE_NAME_LEN ;;
  print_info_str_buf "HARDWARE_NAME"
    (field offsetof_hardware_name HARDWARE_NAME_LEN controller_params)
    HARDWARE_NAME_LEN ;;
  print_info_fw_rev "RUNNING_FIRM_REV"
    (field offsetof_running_firm_rev FIRMWARE_REV_LEN controller_id) ;;
  print_info_fw_rev "ROM_FIRM_REV"
    (field offsetof_rom_firm_rev FIRMWARE_REV_LEN controller_id) ;;
  print_info_fw_rev "REC_ROM_INACTIVE_REV"
    (field offsetof_rec_rom_inactive_rev FIRMWARE_REV_LEN controller_id) ;;
  print_out ("YET_MORE_CONTROLLER_FLAGS='0x"
             ++ fmt_0x 8 (le32toh_field offsetof_yet_more_controller_flags
                            controller_id)
             ++ "'" ++ nl) ;;
  print_out ("HBA_MODE_SUPPORTED="
             ++ fmt_d (is_hba_mode_supported controller_id) ++ nl).

(** [print_info] *)
Definition print_info (path : option string) (fd : Z) : proc unit :=
  let controller_id := repeat 0 (Z.to_nat sizeof_identify_controller) in
  let controller_params := repeat 0 (Z.to_nat sizeof_controller_parameters) in
  controller_id <- identify_controller path fd controller_id ;;
  controller_params <- sense_controller_parameters path fd controller_params ;;
  print_report controller_id controller_params.

(** [enum cli_action] *)
Inductive cli_action : Type :=
| ACTION_HELP
| ACTION_VERSION
| ACTION_INFO
| ACTION_UNKNOWN.

(** The [while] loop of [main] over the returns of [getopt] that are
    left; the end of the list is the return of -1. *)
Fixpoint parse_options (rs : list getopt_return) (action : cli_action)
    (path : option string) : proc (cli_action * option string) :=
  match rs with
  | [] => ret (action, path)
  | r :: rs =>
      if opt r =? -1 then ret (action, path)
      else if opt r =? 104 (* 'h' *) then parse_options rs ACTION_HELP path
      else if opt r =? 118 (* 'v' *) then parse_options rs ACTION_VERSION path
      else if opt r =? 105 (* 'i' *) then
        parse_options rs ACTION_INFO (Some (optarg r))
      else if opt r =? 63 (* '?' *) then
        die ("Unknown command line option: '" ++ fmt_c (optopt r)
             ++ "', try running with -h")
      else if opt r =? 58 (* ':' *) then
        die ("Missing argument for option '" ++ fmt_c (optopt r)
             ++ "', try running with -h")
      else die ("getopt() returned unexpected value: " ++ fmt_d (opt r))
  end.

(** [main]; the result is the value it returns. *)
Definition main : proc Z :=
  parsed <- parse_options (getopt_returns h) ACTION_UNKNOWN None ;;
  let action := fst parsed in
  let path := snd parsed in
  (if argc h >? optind h then
     die "Invalid argument in command line, try running with -h"
   else ret tt) ;;
  fd <- match path with
        | Some p => open_dev p
        | None => ret (-1)
        end ;;
  match action with
  | ACTION_HELP => print_help (argv0 h)
  | ACTION_VERSION => print_version
  | ACTION_INFO => print_info path fd
  | ACTION_UNKNOWN => die "No option selected, try running with -h"
  end ;;
  (if fd =? -1 then ret tt else close_dev path fd) ;;
  ret 0.

(** The exit status of the process and its final state: returning [s]
    from [main] is [exit(s)]; [None] stands for the abnormal end through
    [abort()]. *)
Definition run : option Z * world :=
  match main initial_world with
  | (Return s, w) => (Some s, w)
  | (Exit s, w) => (Some s, w)
  | (Abort _, w) => (None, w)
  end.

End Program.

(** ** Sample values

    One choice of header constants, of field offsets and of hosts, on
    which the definitions can be run. *)

Definition sample_headers : hpsa_h.
Proof.
  refine {| BMIC_READ := 0x26; BMIC_WRITE := 0x27;
            BMIC_IDENTIFY_CONTROLLER := 0x11;
            BMIC_SENSE_CONTROLLER_PARAMETERS := 0x64;
            XFER_READ := 2; XFER_WRITE := 1; TYPE_CMD := 0; ATTR_SIMPLE := 4;
            SENSEINFOBYTES := 32; HBA_MODE_SUPP_BIT := 25;
            VENDOR_ID_LEN := 8; PRODUCT_ID_LEN := 16;
            SOFTWARE_NAME_LEN := 64; HARDWARE_NAME_LEN := 32;
            FIRMWARE_REV_LEN := 4; MAX_STR_BUF_LEN := 64;
            sizeof_identify_controller := 64;
            sizeof_controller_parameters := 96 |};
    try (intro E; discriminate E); lia.
Defined.

Definition sample_layout : hpsa_layout :=
  {| offsetof_vendor_id := 0; offsetof_product_id := 8;
     offsetof_board_id := 24; offsetof_running_firm_rev := 28;
     offsetof_rom_firm_rev := 32; offsetof_rec_rom_inactive_rev := 36;
     offsetof_yet_more_controller_flags := 40;
     offsetof_software_name := 0; offsetof_hardware_name := 64 |}.

(** The bytes of a text. *)
Fixpoint bytes_of_string (s : string) : list Z :=
  match s with
  | EmptyString => []
  | String c t => Z.of_N (N_of_ascii c) :: bytes_of_string t
  end.

(** A controller that answers the identify command with [id] and the
    parameters command with [params], and reports [status] as the
    command status of both, with [sense_len] sense bytes. *)
Definition sample_ioctl (id params : list Z) (status sense_len : Z)
    (_ : list syscall) (_ : Z) (cmd : IOCTL_Command_struct) (_ : list Z)
  : ioctl_answer :=
  {| ioctl_rc := 0; ioctl_errno := 0;
     ioctl_error_info :=
       {| ScsiStatus := 2; SenseLen := sense_len; CommandStatus := status;
          ResidualCnt := 0;
          SenseInfo := map Z.of_nat (seq 112 32) |};
     ioctl_data := if load (CDB (Request cmd)) 6 =? 0x11 then id else params |}.

Definition sample_id : list Z :=
  (bytes_of_string "ACME    " ++ bytes_of_string " Smart Array    "
     ++ [0x34; 0x12; 0x3c; 0x10]
     ++ bytes_of_string "1.0 " ++ bytes_of_string "2.1" ++ [0]
     ++ bytes_of_string "    "
     ++ le32_bytes (Z.shiftl 1 25) ++ repeat 0 20)%list.

Definition sample_params : list Z :=
  (bytes_of_string "soft ware" ++ repeat 32 55
     ++ bytes_of_string "hard" ++ repeat 0 28)%list.

Definition sample_strerror (e : Z) : string :=
  if e =? 2 then "No such file or directory" else "Input/output error".

(** The diagnostic of glibc for a build from [main.c], without the line
    and the function. *)
Definition sample_assert_diagnostic (expr : string) : string :=
  "hpsahba: main.c: Assertion `" ++ expr ++ "' failed." ++ nl.

(** A host whose [getopt] reports [opts] and leaves no operand, whose
    [open] answers [open_ret], whose controller reports [status], and
    whose [close] answers [close_ret]. *)
Definition sample_host (opts : list getopt_return) (extra : Z)
    (open_ret status sense_len close_ret : Z) : host :=
  {| argv0 := "hpsahba";
     argc := 1 + Z.of_nat (List.length opts) + extra;
     getopt_returns := opts;
     optind := 1 + Z.of_nat (List.length opts);
     sys_open := fun _ _ _ => (open_ret, 2);
     sys_ioctl := sample_ioctl sample_id sample_params status sense_len;
     sys_close := fun _ _ => (close_ret, 5);
     strerror := sample_strerror;
     addr_controller_id := 4096;
     addr_controller_params := 8192;
     assert_diagnostic := sample_assert_diagnostic |}.

Definition opt_h : getopt_return :=
  {| opt := 104; optarg := ""; optopt := 0 |}.
Definition opt_i (path : string) : getopt_return :=
  {| opt := 105; optarg := path; optopt := 0 |}.
Definition opt_unknown (c : Z) : getopt_return :=
  {| opt := 63; optarg := ""; optopt := c |}.

(** ** Descriptions used by the properties *)

Section Descriptions.
Context `{hpsa_h} `{hpsa_layout} (h : host).

(** The text [print_info_str_buf] puts between the quotes for the field
    of [len] bytes at offset [off]. *)
Definition shown_text (off len : nat) (record : list Z) : string :=
  string_of_bytes (trim (strncpy (field off len record) len)).

(** The world after an [ioctl] call on [cmd] answered by [a]. *)
Definition after_ioctl (fd : Z) (cmd : IOCTL_Command_struct)
    (a : ioctl_answer) (w : world) : world :=
  {| stdout := stdout w; stderr := stderr w; errno := ioctl_errno a;
     calls := (calls w ++ [ioctl_call fd cmd (ioctl_rc a)])%list |}.

(** The command [identify_controller] submits, and the kernel's answer
    to it in world [w]. *)
Definition identify_cmd : IOCTL_Command_struct :=
  filled zero_cmd BMIC_IDENTIFY_CONTROLLER (addr_controller_id h)
    sizeof_identify_controller.

Definition identify_answer (fd : Z) (w : world) : ioctl_answer :=
  sys_ioctl h (calls w) fd identify_cmd
    (repeat 0 (Z.to_nat sizeof_identify_controller)).

(** The command [sense_controller_parameters] submits, and the answer to
    it once the identify command has been answered. *)
Definition params_cmd : IOCTL_Command_struct :=
  filled zero_cmd BMIC_SENSE_CONTROLLER_PARAMETERS (addr_controller_params h)
    sizeof_controller_parameters.

Definition params_answer (fd : Z) (w : world) : ioctl_answer :=
  sys_ioctl h
    (calls (after_ioctl fd identify_cmd (identify_answer fd w) w))
    fd params_cmd (repeat 0 (Z.to_nat sizeof_controller_parameters)).

(** The call was carried out and the controller reported no error. *)
Definition command_ok (a : ioctl_answer) : bool :=
  (ioctl_rc a =? 0) && (u16 (CommandStatus (ioctl_error_info a)) =? 0).

(** The report as the specification words it: string fields between
    quotes, the two numeric fields as 0x and eight digits without
    quotes, the derived boolean as 0 or 1, in the form of the string
    fields when [derived_quoted] and bare otherwise (the wording allows
    both readings). *)
Definition report_as_specified (derived_quoted : bool)
    (controller_id controller_params : list Z) : string :=
  "VENDOR_ID='"
    ++ shown_text offsetof_vendor_id VENDOR_ID_LEN controller_id ++ "'" ++ nl
  ++ "PRODUCT_ID='"
    ++ shown_text offsetof_product_id PRODUCT_ID_LEN controller_id
    ++ "'" ++ nl
  ++ "BOARD_ID=0x"
    ++ hex_digits 8 (le32toh_field offsetof_board_id controller_id) ++ nl
  ++ "SOFTWARE_NAME='"
    ++ shown_text offsetof_software_name SOFTWARE_NAME_LEN controller_params
    ++ "'" ++ nl
  ++ "HARDWARE_NAME='"
    ++ shown_text offsetof_hardware_name HARDWARE_NAME_LEN controller_params
    ++ "'" ++ nl
  ++ "RUNNING_FIRM_REV='"
    ++ shown_text offsetof_running_firm_rev FIRMWARE_REV_LEN controller_id
    ++ "'" ++ nl
  ++ "ROM_FIRM_REV='"
    ++ shown_text offsetof_rom_firm_rev FIRMWARE_REV_LEN controller_id
    ++ "'" ++ nl
  ++ "REC_ROM_INACTIVE_REV='"
    ++ shown_text offsetof_rec_rom_inactive_rev FIRMWARE_REV_LEN controller_id
    ++ "'" ++ nl
  ++ "YET_MORE_CONTROLLER_FLAGS=0x"
    ++ hex_digits 8
         (le32toh_field offsetof_yet_more_controller_flags controller_id)
    ++ nl
  ++ "HBA_MODE_SUPPORTED="
    ++ (if derived_quoted then "'" else "")
    ++ (if Z.testbit
             (le32toh_field offsetof_yet_more_controller_flags controller_id)
             HBA_MODE_SUPP_BIT
        then "1" else "0")
    ++ (if derived_quoted then "'" else "")
    ++ nl.

(** The report as [print_report] writes it: the numeric fields are
    between quotes as well. *)
Definition report_text (controller_id controller_params : list Z) : string :=
  "VENDOR_ID='"
    ++ shown_text offsetof_vendor_id VENDOR_ID_LEN controller_id ++ "'" ++ nl
  ++ "PRODUCT_ID='"
    ++ shown_text offsetof_product_id PRODUCT_ID_LEN controller_id
    ++ "'" ++ nl
  ++ "BOARD_ID='0x"
    ++ hex_digits 8 (le32toh_field offsetof_board_id controller_id)
    ++ "'" ++ nl
  ++ "SOFTWARE_NAME='"
    ++ shown_text offsetof_software_name SOFTWARE_NAME_LEN controller_params
    ++ "'" ++ nl
  ++ "HARDWARE_NAME='"
    ++ shown_text offsetof_hardware_name HARDWARE_NAME_LEN controller_params
    ++ "'" ++ nl
  ++ "RUNNING_FIRM_REV='"
    ++ shown_text offsetof_running_firm_rev FIRMWARE_REV_LEN controller_id
    ++ "'" ++ nl
  ++ "ROM_FIRM_REV='"
    ++ shown_text offsetof_rom_firm_rev FIRMWARE_REV_LEN controller_id
    ++ "'" ++ nl
  ++ "REC_ROM_INACTIVE_REV='"
    ++ shown_text offsetof_rec_rom_inactive_rev FIRMWARE_REV_LEN controller_id
    ++ "'" ++ nl
  ++ "YET_MORE_CONTROLLER_FLAGS='0x"
    ++ hex_digits 8
         (le32toh_field offsetof_yet_more_controller_flags controller_id)
    ++ "'" ++ nl
  ++ "HBA_MODE_SUPPORTED="
    ++ (if Z.testbit
             (le32toh_field offsetof_yet_more_controller_flags controller_id)
             HBA_MODE_SUPP_BIT
        then "1" else "0")
    ++ nl.

(** A fatal line as [die] writes it. *)
Definition fatal (message : string) : string :=
  "FATAL ERROR: " ++ message ++ nl.

(** [errno] and its description as [die_dev_errno] appends them. *)
Definition errno_text (e : Z) : string :=
  ": " ++ fmt_d e ++ " " ++ strerror h e.

(** The message [main] dies with in its option loop, if any of the
    returns of [getopt] makes it die. *)
Fixpoint rejected (rs : list getopt_return) : option string :=
  match rs with
  | [] => None
  | r :: rs =>
      if opt r =? -1 then None
      else if (opt r =? 104) || (opt r =? 118) || (opt r =? 105)
      then rejected rs
      else if opt r =? 63 then
        Some ("Unknown command line option: '" ++ fmt_c (optopt r)
              ++ "', try running with -h")
      else if opt r =? 58 then
        Some ("Missing argument for option '" ++ fmt_c (optopt r)
              ++ "', try running with -h")
      else Some ("getopt() returned unexpected value: " ++ fmt_d (opt r))
  end.

(** The action and the path that the options h, v and i among the
    returns of [getopt] leave behind. *)
Fixpoint selected (rs : list getopt_return) (action : cli_action)
    (path : option string) : cli_action * option string :=
  match rs with
  | [] => (action, path)
  | r :: rs =>
      if opt r =? -1 then (action, path)
      else if opt r =? 104 then selected rs ACTION_HELP path
      else if opt r =? 118 then selected rs ACTION_VERSION path
      else if opt r =? 105 then selected rs ACTION_INFO (Some (optarg r))
      else selected rs action path
  end.

Definition choice : cli_action * option string :=
  selected (getopt_returns h) ACTION_UNKNOWN None.

(** The text of [print_cmd_error]. *)
Definition dump_text (info : ErrorInfo_struct) : string :=
  "HPSA SCSI error info:" ++ nl
  ++ tab ++ "ScsiStatus: 0x" ++ fmt_0x 2 (u8 (ScsiStatus info)) ++ nl
  ++ tab ++ "SenseLen: " ++ fmt_d (u8 (SenseLen info)) ++ nl
  ++ tab ++ "CommandStatus: 0x" ++ fmt_0x 4 (u16 (CommandStatus info)) ++ nl
  ++ tab ++ "ResidualCnt: 0x" ++ fmt_0x 8 (u32 (ResidualCnt info)) ++ nl
  ++ tab ++ "SenseInfo:"
  ++ (if u8 (SenseLen info) =? 0 then " <none>"
      else sense_bytes info
             (Z.to_nat (Z.min (u8 (SenseLen info)) (Z.of_nat SENSEINFOBYTES)))
             0)
  ++ nl.

(** What [really_exec_cmd] writes to the error stream when the command
    named [cmd_name] on the device at [path], answered by [a], fails. *)
Definition failure_text (path cmd_name : string) (a : ioctl_answer)
  : string :=
  if ioctl_rc a =? 0 then
    dump_text (ioctl_error_info a)
    ++ fatal (path ++ ": Command " ++ cmd_name ++ " failed")
  else
    fatal (path ++ ": ioctl(CCISS_PASSTHRU) failed with command " ++ cmd_name
           ++ ", rc == " ++ fmt_d (ioctl_rc a)
           ++ errno_text (ioctl_errno a)).

(** The answer of [open] in a process that made no call before. *)
Definition opened (p : string) : Z * Z := sys_open h [] p O_RDWR.

Definition world_opened (p : string) : world :=
  {| stdout := ""; stderr := ""; errno := snd (opened p);
     calls := [open_call p O_RDWR (fst (opened p))] |}.

(** The world once the device at [p] is open and the action has run to
    its end, when it does. *)
Definition world_acted (action : cli_action) (p : string) : option world :=
  let w := world_opened p in
  let fd := fst (opened p) in
  match action with
  | ACTION_HELP =>
      Some {| stdout := ""; stderr := help_text (argv0 h);
              errno := errno w; calls := calls w |}
  | ACTION_VERSION =>
      Some {| stdout := hpsahba_version ++ nl; stderr := "";
              errno := errno w; calls := calls w |}
  | ACTION_INFO =>
      let a1 := identify_answer fd w in
      let w1 := after_ioctl fd identify_cmd a1 w in
      let a2 := params_answer fd w in
      let w2 := after_ioctl fd params_cmd a2 w1 in
      if command_ok a1 && command_ok a2 then
        Some {| stdout := report_text (ioctl_data a1) (ioctl_data a2);
                stderr := ""; errno := errno w2; calls := calls w2 |}
      else None
  | ACTION_UNKNOWN => None
  end.

(** The runs of the program, by what the host does: the exit status
    (none after [abort()]) and the final world of each. *)
Inductive run_shape : option Z -> world -> Prop :=
| usage_error (message : string) :
    rejected (getopt_returns h) = Some message ->
    run_shape (Some 1)
      {| stdout := ""; stderr := fatal message; errno := 0; calls := [] |}
| operand_error :
    rejected (getopt_returns h) = None ->
    optind h < argc h ->
    run_shape (Some 1)
      {| stdout := "";
         stderr :=
           fatal "Invalid argument in command line, try running with -h";
         errno := 0; calls := [] |}
| no_action :
    rejected (getopt_returns h) = None ->
    argc h <= optind h ->
    choice = (ACTION_UNKNOWN, None) ->
    run_shape (Some 1)
      {| stdout := "";
         stderr := fatal "No option selected, try running with -h";
         errno := 0; calls := [] |}
| done_without_device (action : cli_action) :
    rejected (getopt_returns h) = None ->
    argc h <= optind h ->
    choice = (action, None) ->
    action = ACTION_HELP \/ action = ACTION_VERSION ->
    run_shape (Some 0)
      {| stdout := match action with
                   | ACTION_VERSION => hpsahba_version ++ nl
                   | _ => ""
                   end;
         stderr := match action with
                   | ACTION_HELP => help_text (argv0 h)
                   | _ => ""
                   end;
         errno := 0; calls := [] |}
| open_error (action : cli_action) (p : string) :
    rejected (getopt_returns h) = None ->
    argc h <= optind h ->
    choice = (action, Some p) ->
    fst (opened p) = -1 ->
    run_shape (Some 1)
      {| stdout := "";
         stderr := fatal (p ++ ": Unable to open device r/w"
                          ++ errno_text (snd (opened p)));
         errno := snd (opened p);
         calls := [open_call p O_RDWR (-1)] |}
| identify_error (p : string) :
    rejected (getopt_returns h) = None ->
    argc h <= optind h ->
    choice = (ACTION_INFO, Some p) ->
    fst (opened p) <> -1 ->
    let fd := fst (opened p) in
    let a1 := identify_answer fd (world_opened p) in
    command_ok a1 = false ->
    run_shape (Some 1)
      {| stdout := "";
         stderr := failure_text p "BMIC_IDENTIFY_CONTROLLER" a1;
         errno := ioctl_errno a1;
         calls := [open_call p O_RDWR fd;
                   ioctl_call fd identify_cmd (ioctl_rc a1)] |}
| params_error (p : string) :
    rejected (getopt_returns h) = None ->
    argc h <= optind h ->
    choice = (ACTION_INFO, Some p) ->
    fst (opened p) <> -1 ->
    let fd := fst (opened p) in
    let a1 := identify_answer fd (world_opened p) in
    let a2 := params_answer fd (world_opened p) in
    command_ok a1 = true ->
    command_ok a2 = false ->
    run_shape (Some 1)
      {| stdout := "";
         stderr := failure_text p "BMIC_SENSE_CONTROLLER_PARAMETERS" a2;
         errno := ioctl_errno a2;
         calls := [open_call p O_RDWR fd;
                   ioctl_call fd identify_cmd (ioctl_rc a1);
                   ioctl_call fd params_cmd (ioctl_rc a2)] |}
| done_with_device (action : cli_action) (p : string) (w : world) :
    rejected (getopt_returns h) = None ->
    argc h <= optind h ->
    choice = (action, Some p) ->
    fst (opened p) <> -1 ->
    world_acted action p = Some w ->
    let fd := fst (opened p) in
    fst (sys_close h (calls w) fd) = 0 ->
    run_shape (Some 0)
      {| stdout := stdout w; stderr := stderr w;
         errno := snd (sys_close h (calls w) fd);
         calls := (calls w ++ [close_call fd 0])%list |}
| close_error (action : cli_action) (p : string) (w : world) :
    rejected (getopt_returns h) = None ->
    argc h <= optind h ->
    choice = (action, Some p) ->
    fst (opened p) <> -1 ->
    world_acted action p = Some w ->
    let fd := fst (opened p) in
    let rc := fst (sys_close h (calls w) fd) in
    let e := snd (sys_close h (calls w) fd) in
    rc <> 0 ->
    run_shape (Some 1)
      {| stdout := stdout w;
         stderr := stderr w ++ fatal (p ++ ": close() failed" ++ errno_text e);
         errno := e;
         calls := (calls w ++ [close_call fd rc])%list |}.

(** What [selected] keeps true: no action goes with no path, and the
    info action goes with a path. *)
Definition coherent (c : cli_action * option string) : Prop :=
  match fst c with
  | ACTION_UNKNOWN => snd c = None
  | ACTION_INFO => exists p, snd c = Some p
  | _ => True
  end.

(** The action an option asks for. *)
Definition action_of (r : getopt_return) : cli_action :=
  if opt r =? 104 then ACTION_HELP
  else if opt r =? 118 then ACTION_VERSION
  else if opt r =? 105 then ACTION_INFO
  else ACTION_UNKNOWN.

(** One of the options h, v and i. *)
Definition known_option (r : getopt_return) : Prop :=
  opt r = 104 \/ opt r = 118 \/ opt r = 105.

(** The run meets no fatal condition: the options are accepted, there is
    no operand, an action is selected, the device opens when a path was
    given, the action runs to its end, and the device closes. *)
Definition succeeds : Prop :=
  rejected (getopt_returns h) = None /\
  argc h <= optind h /\
  match choice with
  | (ACTION_UNKNOWN, _) => False
  | (_, None) => True
  | (action, Some p) =>
      fst (opened p) <> -1 /\
      exists w,
        world_acted action p = Some w /\
        fst (sys_close h (calls w) (fst (opened p))) = 0
  end.

(** The result of the selected action is all there in world [w]: the
    help text on the error stream, the version or the whole report on
    the output stream. *)
Definition produced (w : world) : Prop :=
  match choice with
  | (ACTION_HELP, _) => exists rest, stderr w = help_text (argv0 h) ++ rest
  | (ACTION_VERSION, _) => stdout w = hpsahba_version ++ nl
  | (ACTION_INFO, Some p) =>
      let fd := fst (opened p) in
      stdout w
      = report_text (ioctl_data (identify_answer fd (world_opened p)))
          (ioctl_data (params_answer fd (world_opened p)))
  | _ => False
  end.

Definition is_open (c : syscall) : bool :=
  match c with open_call _ _ _ => true | _ => false end.

Definition is_ioctl (c : syscall) : bool :=
  match c with ioctl_call _ _ _ => true | _ => false end.

Definition is_close (c : syscall) : bool :=
  match c with close_call _ _ => true | _ => false end.


End Descriptions.

Definition host_info : host := sample_host [opt_i "/dev/sg0"] 0 3 0 0 0.
Definition host_close_fails : host :=
  sample_host [opt_i "/dev/sg0"] 0 3 0 0 (-1).
Definition host_command_fails : host :=
  sample_host [opt_i "/dev/sg0"] 0 3 4 3 0.
Definition host_info_then_help : host :=
  sample_host [opt_i "/dev/sg0"; opt_h] 0 3 0 0 0.

(** An identify record whose product id holds a line break, and the
    info action on a controller that answers with it. *)
Definition sample_id_line_break : list Z :=
  (bytes_of_string "ACME    " ++ [97; 10; 98] ++ repeat 32 13
     ++ skipn 24 sample_id)%list.

Definition host_line_break : host :=
  {| argv0 := "hpsahba";
     argc := 3;
     getopt_returns := [opt_i "/dev/sg0"];
     optind := 3;
     sys_open := fun _ _ _ => (3, 0);
     sys_ioctl := sample_ioctl sample_id_line_break sample_params 0 0;
     sys_close := fun _ _ => (0, 0);
     strerror := sample_strerror;
     addr_controller_id := 4096;
     addr_controller_params := 8192;
     assert_diagnostic := sample_assert_diagnostic |}.


(** A run with the sample headers and layout. *)
Definition sample_run (h : host) : option Z * world :=
  @run sample_headers sample_layout h.

(** More sample hosts: an [ioctl] that fails as a call; an unknown
    option x after the option i; an operand after the option i; the
    option v followed by h; and two options i followed by h. *)
Definition host_ioctl_fails : host :=
  {| argv0 := "hpsahba";
     argc := 3;
     getopt_returns := [opt_i "/dev/sg0"];
     optind := 3;
     sys_open := fun _ _ _ => (3, 0);
     sys_ioctl := fun _ _ _ _ =>
       {| ioctl_rc := -1; ioctl_errno := 5;
          ioctl_error_info :=
            {| ScsiStatus := 0; SenseLen := 0; CommandStatus := 7;
               ResidualCnt := 0; SenseInfo := repeat 0 32 |};
          ioctl_data := [] |};
     sys_close := fun _ _ => (0, 0);
     strerror := sample_strerror;
     addr_controller_id := 4096;
     addr_controller_params := 8192;
     assert_diagnostic := sample_assert_diagnostic |}.

Definition host_unknown_option : host :=
  sample_host [opt_i "/dev/sg0"; opt_unknown 120] 0 3 0 0 0.

Definition host_operand : host :=
  sample_host [opt_i "/dev/sg0"] 1 3 0 0 0.


Definition host_two_devices : host :=
  sample_host [opt_i "/dev/sg0"; opt_i "/dev/sg1"; opt_h] 0 3 0 0 0.

(** * Properties *)

(** ** Arrays *)

Lemma load_store_same (a : list Z) (i : nat) (v : Z) :
  (i < List.length a)%nat -> load (store a i v) i = v.
Proof.
  unfold load. revert i.
  induction a as [|x a IH]; intros [|i] Hi; simpl in *;
    [lia | lia | reflexivity | apply IH; lia].
Qed.

Lemma load_store_other (a : list Z) (i j : nat) (v : Z) :
  i <> j -> load (store a i v) j = load a j.
Proof.
  unfold load. revert i j.
  induction a as [|x a IH]; intros [|i] [|j] Hij; simpl; try reflexivity.
  - congruence.
  - apply IH. congruence.
Qed.

Lemma length_store (a : list Z) (i : nat) (v : Z) :
  List.length (store a i v) = List.length a.
Proof.
  revert i. induction a as [|x a IH]; intros [|i]; simpl; auto.
Qed.

Lemma to_unsigned_small (w x : Z) : 0 <= x < 2 ^ w -> to_unsigned w x = x.
Proof. intros Hx. unfold to_unsigned. apply Z.mod_small. exact Hx. Qed.

(** ** The command builder *)

Section BuilderFacts.
Context `{hpsa_h}.

Lemma direction_of_recognized (cmd_num : Z) :
  recognized cmd_num -> direction_of cmd_num = Returns 0.
Proof.
  intros [E | E]; unfold direction_of; subst cmd_num; rewrite Z.eqb_refl.
  - reflexivity.
  - rewrite orb_true_r. reflexivity.
Qed.

Lemma direction_of_unrecognized (cmd_num : Z) :
  ~ recognized cmd_num -> direction_of cmd_num = AssertionFailed "0".
Proof.
  intros Hn. unfold direction_of, recognized in *.
  destruct (Z.eqb_spec cmd_num BMIC_IDENTIFY_CONTROLLER) as [E | _];
    [tauto |].
  destruct (Z.eqb_spec cmd_num BMIC_SENSE_CONTROLLER_PARAMETERS) as [E | _];
    [tauto | reflexivity].
Qed.

Lemma recognized_byte (cmd_num : Z) : recognized cmd_num -> 0 <= cmd_num < 256.
Proof.
  intros [E | E]; subst cmd_num;
    [apply BMIC_IDENTIFY_CONTROLLER_byte
    | apply BMIC_SENSE_CONTROLLER_PARAMETERS_byte].
Qed.

Lemma fill_cmd_returns (cmd : IOCTL_Command_struct) (cmd_num buf size : Z) :
  recognized cmd_num -> size <= UINT16_MAX ->
  fill_cmd cmd cmd_num buf size = Returns (filled cmd cmd_num buf size).
Proof.
  intros Hop Hsize. unfold fill_cmd.
  rewrite (direction_of_recognized _ Hop). simpl.
  unfold set_cmd_buf, set_cdb_buf_size. simpl.
  destruct (Z.leb_spec size UINT16_MAX) as [_ | Hgt]; [reflexivity | lia].
Qed.

Lemma fill_cmd_size_assertion (cmd : IOCTL_Command_struct)
    (cmd_num buf size : Z) :
  recognized cmd_num -> UINT16_MAX < size ->
  fill_cmd cmd cmd_num buf size = AssertionFailed "size <= UINT16_MAX".
Proof.
  intros Hop Hsize. unfold fill_cmd.
  rewrite (direction_of_recognized _ Hop). simpl.
  unfold set_cmd_buf, set_cdb_buf_size. simpl.
  destruct (Z.leb_spec size UINT16_MAX) as [Hle | _]; [lia | reflexivity].
Qed.

Lemma fill_cmd_unrecognized (cmd : IOCTL_Command_struct)
    (cmd_num buf size : Z) :
  ~ recognized cmd_num ->
  fill_cmd cmd cmd_num buf size = AssertionFailed "0".
Proof.
  intros Hop. unfold fill_cmd.
  rewrite (direction_of_unrecognized _ Hop). reflexivity.
Qed.

Lemma fill_cmd_inv (cmd cmd' : IOCTL_Command_struct) (cmd_num buf size : Z) :
  recognized cmd_num ->
  fill_cmd cmd cmd_num buf size = Returns cmd' ->
  size <= UINT16_MAX /\ cmd' = filled cmd cmd_num buf size.
Proof.
  intros Hop Hret.
  destruct (Z.le_gt_cases size UINT16_MAX) as [Hle | Hgt].
  - rewrite (fill_cmd_returns _ _ _ _ Hop Hle) in Hret.
    split; [exact Hle | congruence].
  - rewrite (fill_cmd_size_assertion _ _ _ _ Hop Hgt) in Hret. discriminate.
Qed.

(** C1. For a known opcode, a command whose descriptor block has its 16
    bytes and any buffer address and [size_t] size: whenever [fill_cmd]
    returns, the command has the opcode in descriptor byte 6, [BMIC_READ]
    in byte 0, direction [XFER_READ], descriptor length 10, type
    [TYPE_CMD], attribute [ATTR_SIMPLE], timeout 0, and the buffer address
    and size; and it does return when the size passes the assertion. *)
Theorem fill_cmd_envelope (cmd : IOCTL_Command_struct) (cmd_num addr size : Z) :
  recognized cmd_num ->
  List.length (CDB (Request cmd)) = 16%nat ->
  0 <= size ->
  (size <= UINT16_MAX ->
   exists cmd', fill_cmd cmd cmd_num addr size = Returns cmd') /\
  (forall cmd',
     fill_cmd cmd cmd_num addr size = Returns cmd' ->
     load (CDB (Request cmd')) 6 = cmd_num /\
     load (CDB (Request cmd')) 0 = BMIC_READ /\
     Type_Direction (Request cmd') = XFER_READ /\
     CDBLen (Request cmd') = 10 /\
     Type_Type (Request cmd') = TYPE_CMD /\
     Type_Attribute (Request cmd') = ATTR_SIMPLE /\
     Timeout (Request cmd') = 0 /\
     buf cmd' = addr /\
     buf_size cmd' = size).
Proof.
  intros Hop Hlen Hsize. split.
  - intros Hle. eexists. apply fill_cmd_returns; assumption.
  - intros cmd' Hret.
    destruct (fill_cmd_inv _ _ _ _ _ Hop Hret) as [Hle ->].
    pose proof (recognized_byte _ Hop) as Hbyte.
    unfold filled; simpl.
    repeat split.
    + rewrite !(load_store_other _ _ 6) by discriminate.
      rewrite load_store_same by (rewrite Hlen; lia).
      apply to_unsigned_small. exact Hbyte.
    + rewrite !(load_store_other _ _ 0) by discriminate.
      rewrite load_store_same by (rewrite length_store, Hlen; lia).
      apply to_unsigned_small, BMIC_READ_byte.
    + apply to_unsigned_small, XFER_READ_fits.
    + apply to_unsigned_small, TYPE_CMD_fits.
    + apply to_unsigned_small, ATTR_SIMPLE_fits.
    + apply to_unsigned_small. unfold UINT16_MAX in Hle. lia.
Qed.

End BuilderFacts.

(** ** The size field of the descriptor block *)

Lemma high_byte_fits (size : Z) :
  0 <= size <= UINT16_MAX -> u8 (Z.shiftr size 8) = size / 256.
Proof.
  intros Hsize. unfold UINT16_MAX in Hsize.
  rewrite Z.shiftr_div_pow2 by lia. change (2 ^ 8) with 256.
  apply to_unsigned_small. change (2 ^ 8) with 256.
  split; [apply Z.div_pos; lia | apply Z.div_lt_upper_bound; lia].
Qed.

Lemma low_byte_fits (size : Z) :
  0 <= size -> u8 (Z.land size 255) = size mod 256.
Proof.
  intros Hsize. change 255 with (Z.ones 8).
  rewrite Z.land_ones by lia. change (2 ^ 8) with 256.
  apply to_unsigned_small. change (2 ^ 8) with 256.
  apply Z.mod_pos_bound. lia.
Qed.

Lemma big_endian_16 (hi lo : Z) :
  0 <= lo < 256 -> Z.lor (Z.shiftl hi 8) lo = hi * 256 + lo.
Proof.
  intros Hlo.
  rewrite Z.shiftl_mul_pow2 by lia. change (2 ^ 8) with 256.
  assert (Hdisjoint : Z.land (hi * 256) lo = 0).
  { apply Z.bits_inj'. intros n Hn.
    rewrite Z.land_spec, Z.bits_0.
    destruct (Z.lt_ge_cases n 8) as [Hlt | Hge].
    - change 256 with (2 ^ 8). rewrite Z.mul_pow2_bits_low by lia.
      reflexivity.
    - rewrite (Z.bits_above_log2 lo n), andb_false_r; [reflexivity | lia |].
      destruct (Z.eq_dec lo 0) as [-> | Hnz]; [simpl; lia |].
      apply Z.lt_le_trans with 8; [| exact Hge].
      apply Z.log2_lt_pow2; [lia | change (2 ^ 8) with 256; lia]. }
  rewrite (Z.add_nocarry_lxor _ _ Hdisjoint).
  symmetry. apply Z.lxor_lor. exact Hdisjoint.
Qed.

Lemma set_cdb_buf_size_decodes (cdb : list Z) (size : Z) :
  (9 <= List.length cdb)%nat -> 0 <= size <= UINT16_MAX ->
  exists cdb',
    set_cdb_buf_size cdb size = Returns cdb' /\
    load cdb' 7 = size / 256 /\
    load cdb' 8 = size mod 256 /\
    cdb_buf_size cdb' = size.
Proof.
  intros Hlen Hsize. unfold set_cdb_buf_size.
  destruct (Z.leb_spec size UINT16_MAX) as [_ | Hgt]; [| lia].
  eexists. split; [reflexivity |].
  assert (H7 : load (store (store cdb 7 (u8 (Z.shiftr size 8))) 8
                       (u8 (Z.land size 255))) 7 = size / 256).
  { rewrite load_store_other by discriminate.
    rewrite load_store_same by lia. apply high_byte_fits. exact Hsize. }
  assert (H8 : load (store (store cdb 7 (u8 (Z.shiftr size 8))) 8
                       (u8 (Z.land size 255))) 8 = size mod 256).
  { rewrite load_store_same by (rewrite length_store; lia).
    apply low_byte_fits. lia. }
  split; [exact H7 | split; [exact H8 |]].
  unfold cdb_buf_size. rewrite H7, H8.
  rewrite big_endian_16 by (apply Z.mod_pos_bound; lia).
  symmetry. rewrite Z.mul_comm. apply Z.div_mod. lia.
Qed.

Section SizeField.
Context `{hpsa_h}.

(** C2. For a known opcode and a buffer size of at most 2^16 - 1,
    [fill_cmd] returns a command whose descriptor byte 7 is the high
    byte of the size and byte 8 the low byte, and reading the two bytes
    as a big-endian 16-bit number gives the size back. *)
Theorem fill_cmd_size_big_endian (cmd : IOCTL_Command_struct)
    (cmd_num buf size : Z) :
  recognized cmd_num ->
  List.length (CDB (Request cmd)) = 16%nat ->
  0 <= size <= UINT16_MAX ->
  exists cmd',
    fill_cmd cmd cmd_num buf size = Returns cmd' /\
    load (CDB (Request cmd')) 7 = size / 256 /\
    load (CDB (Request cmd')) 8 = size mod 256 /\
    cdb_buf_size (CDB (Request cmd')) = size.
Proof.
  intros Hop Hlen Hsize.
  exists (filled cmd cmd_num buf size).
  split; [apply fill_cmd_returns; [exact Hop | lia] |].
  set (cdb0 := store (store (CDB (Request cmd)) 6 (u8 cmd_num)) 0
                 (u8 BMIC_READ)).
  assert (Hlen0 : (9 <= List.length cdb0)%nat).
  { unfold cdb0. rewrite !length_store, Hlen. lia. }
  destruct (set_cdb_buf_size_decodes cdb0 size Hlen0 Hsize)
    as (cdb' & Hret & H7 & H8 & Hdec).
  unfold set_cdb_buf_size in Hret.
  destruct (Z.leb_spec size UINT16_MAX) as [_ | Hgt]; [| lia].
  injection Hret as <-.
  unfold filled; simpl. fold cdb0. auto.
Qed.

(** C9. The assertion of the [default] case cannot fail for a known
    opcode and does fail for every other one, whatever the size, at
    which point the process aborts: the error stream gets the
    diagnostic of [assert] and no fatal line of the program, the output
    stream gets nothing, and no system call is made; the two known
    opcodes are distinct; and the assertion on the size holds whenever
    the size is at most 2^16 - 1. *)
Theorem fill_cmd_assertions :
  BMIC_IDENTIFY_CONTROLLER <> BMIC_SENSE_CONTROLLER_PARAMETERS /\
  (forall cmd cmd_num buf size,
     recognized cmd_num ->
     fill_cmd cmd cmd_num buf size <> AssertionFailed "0") /\
  (forall cmd cmd_num buf size,
     ~ recognized cmd_num ->
     fill_cmd cmd cmd_num buf size = AssertionFailed "0") /\
  (forall (h : host) path fd cmd_num cmd_name buf data size w,
     ~ recognized cmd_num ->
     really_exec_cmd h path fd cmd_num cmd_name buf data size w
     = (Abort "0",
        {| stdout := stdout w;
           stderr := stderr w ++ assert_diagnostic h "0";
           errno := errno w; calls := calls w |})) /\
  (forall cdb size,
     size <= UINT16_MAX ->
     exists cdb', set_cdb_buf_size cdb size = Returns cdb') /\
  (forall cmd cmd_num buf size,
     recognized cmd_num -> size <= UINT16_MAX ->
     exists cmd', fill_cmd cmd cmd_num buf size = Returns cmd').
Proof.
  split; [apply case_labels_differ |].
  split.
  { intros cmd cmd_num buf size Hop.
    destruct (Z.le_gt_cases size UINT16_MAX) as [Hle | Hgt].
    - rewrite fill_cmd_returns by assumption. discriminate.
    - rewrite fill_cmd_size_assertion by assumption. discriminate. }
  split; [intros; apply fill_cmd_unrecognized; assumption |].
  split.
  { intros h path fd cmd_num cmd_name buf data size w Hop.
    unfold really_exec_cmd, bind, assert_ok.
    rewrite fill_cmd_unrecognized by assumption. reflexivity. }
  split.
  { intros cdb size Hle. unfold set_cdb_buf_size.
    destruct (Z.leb_spec size UINT16_MAX) as [_ | Hgt]; [| lia].
    eexists. reflexivity. }
  intros cmd cmd_num buf size Hop Hle.
  eexists. apply fill_cmd_returns; assumption.
Qed.

End SizeField.

Lemma fill_cmd_envelope_witness :
  exists cmd',
    @fill_cmd sample_headers (@zero_cmd sample_headers) 0x11 4096 512
    = Returns cmd' /\
    load (CDB (Request cmd')) 6 = 0x11 /\
    load (CDB (Request cmd')) 0 = 0x26 /\
    Type_Direction (Request cmd') = 2 /\
    CDBLen (Request cmd') = 10 /\
    Type_Type (Request cmd') = 0 /\
    Type_Attribute (Request cmd') = 4 /\
    Timeout (Request cmd') = 0 /\
    buf cmd' = 4096 /\
    buf_size cmd' = 512.
Proof.
  destruct (@fill_cmd_envelope sample_headers (@zero_cmd sample_headers)
              0x11 4096 512) as [Hreturns Hfields].
  - left. reflexivity.
  - reflexivity.
  - lia.
  - destruct Hreturns as [cmd' Hcmd']; [unfold UINT16_MAX; lia |].
    exists cmd'. split; [exact Hcmd' | exact (Hfields cmd' Hcmd')].
Defined.

Lemma fill_cmd_size_big_endian_witness :
  exists cmd',
    @fill_cmd sample_headers (@zero_cmd sample_headers) 0x64 8192 0x1234
    = Returns cmd' /\
    load (CDB (Request cmd')) 7 = 0x1234 / 256 /\
    load (CDB (Request cmd')) 8 = 0x1234 mod 256 /\
    cdb_buf_size (CDB (Request cmd')) = 0x1234.
Proof.
  apply (@fill_cmd_size_big_endian sample_headers).
  - right. reflexivity.
  - reflexivity.
  - unfold UINT16_MAX. lia.
Defined.

Lemma fill_cmd_assertions_witness :
  @fill_cmd sample_headers (@zero_cmd sample_headers) 0x12 4096 512
  = AssertionFailed "0".
Proof.
  apply (proj1 (proj2 (proj2 (@fill_cmd_assertions sample_headers)))).
  intros [E | E]; discriminate E.
Defined.

(** ** Byte order and the capability flags *)

Lemma testbit_u32_high (x n : Z) :
  0 <= x < 2 ^ 32 -> 32 <= n -> Z.testbit x n = false.
Proof.
  intros Hx Hn. rewrite <- (Z.mod_small x (2 ^ 32)) by exact Hx.
  apply Z.mod_pow2_bits_high. lia.
Qed.

(** The byte of [x] that starts at bit [s], moved back to bit [s]. *)
Lemma testbit_byte_at (x s n : Z) :
  0 <= s -> 0 <= n ->
  Z.testbit (Z.shiftl (u8 (Z.shiftr x s)) s) n
  = (s <=? n) && (n <? s + 8) && Z.testbit x n.
Proof.
  intros Hs Hn. unfold u8, to_unsigned.
  destruct (Z.leb_spec s n) as [Hle | Hlt]; cbn [andb].
  - rewrite Z.shiftl_spec_high by lia.
    rewrite Z.testbit_mod_pow2 by lia.
    rewrite Z.shiftr_spec by lia.
    replace (n - s + s) with n by lia.
    f_equal.
    destruct (Z.ltb_spec (n - s) 8), (Z.ltb_spec n (s + 8)); lia || reflexivity.
  - apply Z.shiftl_spec_low. exact Hlt.
Qed.

Lemma le32_decode (x : Z) :
  0 <= x < 2 ^ 32 ->
  Z.lor (u8 x)
    (Z.lor (Z.shiftl (u8 (Z.shiftr x 8)) 8)
       (Z.lor (Z.shiftl (u8 (Z.shiftr x 16)) 16)
          (Z.shiftl (u8 (Z.shiftr x 24)) 24))) = x.
Proof.
  intros Hx. apply Z.bits_inj'. intros n Hn.
  rewrite !Z.lor_spec, !testbit_byte_at by lia.
  unfold u8, to_unsigned. rewrite Z.testbit_mod_pow2 by lia.
  destruct (Z.lt_ge_cases n 32) as [Hlt | Hge].
  - destruct (Z.ltb_spec n 8), (Z.leb_spec 8 n), (Z.ltb_spec n (8 + 8)),
      (Z.leb_spec 16 n), (Z.ltb_spec n (16 + 8)), (Z.leb_spec 24 n),
      (Z.ltb_spec n (24 + 8)); simpl; try lia;
      rewrite ?orb_false_r; reflexivity.
  - rewrite (testbit_u32_high x n Hx Hge).
    rewrite !andb_false_r. reflexivity.
Qed.

Lemma u8_idempotent (x : Z) : u8 (u8 x) = u8 x.
Proof.
  unfold u8, to_unsigned. apply Z.mod_mod. discriminate.
Qed.

Lemma le32toh_field_le32_bytes (off : nat) (b : list Z) (x : Z) :
  0 <= x < 2 ^ 32 ->
  field off 4 b = le32_bytes x ->
  le32toh_field off b = x.
Proof.
  intros Hx Hbytes. unfold field, le32_bytes in Hbytes. simpl in Hbytes.
  rewrite Nat.add_0_r in Hbytes.
  injection Hbytes as H0 H1 H2 H3.
  unfold le32toh_field. rewrite H0, H1, H2, H3.
  apply le32_decode. exact Hx.
Qed.

Lemma land_single_bit (f k : Z) :
  0 <= k ->
  (Z.land f (Z.shiftl 1 k) =? 0) = negb (Z.testbit f k).
Proof.
  intros Hk. rewrite Z.shiftl_1_l.
  destruct (Z.testbit f k) eqn:Ebit; simpl.
  - apply Z.eqb_neq. intros Hzero.
    assert (Hk' : Z.testbit (Z.land f (2 ^ k)) k = true).
    { rewrite Z.land_spec, Ebit, Z.pow2_bits_true by exact Hk. reflexivity. }
    rewrite Hzero, Z.bits_0 in Hk'. discriminate.
  - apply Z.eqb_eq. apply Z.bits_inj'. intros n Hn.
    rewrite Z.land_spec, Z.bits_0, Z.pow2_bits_eqb by exact Hk.
    destruct (Z.eqb_spec k n) as [-> | Hne].
    + rewrite Ebit. reflexivity.
    + apply andb_false_r.
Qed.

Section Flags.
Context `{hpsa_h} `{hpsa_layout}.

Lemma is_hba_mode_supported_testbit (controller_id : list Z) :
  is_hba_mode_supported controller_id
  = if Z.testbit
         (le32toh_field offsetof_yet_more_controller_flags controller_id)
         HBA_MODE_SUPP_BIT
    then 1 else 0.
Proof.
  unfold is_hba_mode_supported, YET_MORE_CTLR_FLAG_HBA_MODE_SUPP.
  rewrite land_single_bit by apply HBA_MODE_SUPP_BIT_range.
  destruct (Z.testbit _ _); reflexivity.
Qed.

(** C4. For every 32-bit flags value and every identify record that
    holds it least significant byte first in its capability flags
    field, [is_hba_mode_supported] recovers the value from the wire
    bytes and returns 1 when the bit of
    [YET_MORE_CTLR_FLAG_HBA_MODE_SUPP] is set in it and 0 when it is
    clear; no other bit of the value enters the result. *)
Theorem is_hba_mode_supported_bit (controller_id : list Z) (flags : Z) :
  0 <= flags < 2 ^ 32 ->
  field offsetof_yet_more_controller_flags 4 controller_id
  = le32_bytes flags ->
  le32toh_field offsetof_yet_more_controller_flags controller_id = flags /\
  (Z.testbit flags HBA_MODE_SUPP_BIT = true ->
   is_hba_mode_supported controller_id = 1) /\
  (Z.testbit flags HBA_MODE_SUPP_BIT = false ->
   is_hba_mode_supported controller_id = 0) /\
  (forall controller_id' flags',
     0 <= flags' < 2 ^ 32 ->
     field offsetof_yet_more_controller_flags 4 controller_id'
     = le32_bytes flags' ->
     Z.testbit flags' HBA_MODE_SUPP_BIT = Z.testbit flags HBA_MODE_SUPP_BIT ->
     is_hba_mode_supported controller_id'
     = is_hba_mode_supported controller_id).
Proof.
  intros Hflags Hwire.
  pose proof (le32toh_field_le32_bytes _ _ _ Hflags Hwire) as Hdec.
  split; [exact Hdec |].
  split; [| split].
  - intros Hbit. rewrite is_hba_mode_supported_testbit, Hdec, Hbit.
    reflexivity.
  - intros Hbit. rewrite is_hba_mode_supported_testbit, Hdec, Hbit.
    reflexivity.
  - intros controller_id' flags' Hflags' Hwire' Hsame.
    rewrite !is_hba_mode_supported_testbit, Hdec.
    rewrite (le32toh_field_le32_bytes _ _ _ Hflags' Hwire'), Hsame.
    reflexivity.
Qed.

End Flags.

Lemma is_hba_mode_supported_bit_witness :
  @le32toh_field 40 sample_id = Z.shiftl 1 25 /\
  (Z.testbit (Z.shiftl 1 25) 25 = true ->
   @is_hba_mode_supported sample_headers sample_layout sample_id = 1).
Proof.
  pose proof (@is_hba_mode_supported_bit sample_headers sample_layout
                sample_id (Z.shiftl 1 25)) as Hbit.
  assert (Hrange : 0 <= Z.shiftl 1 25 < 2 ^ 32)
    by (vm_compute; split; congruence).
  assert (Hwire : @field 40 4 sample_id = le32_bytes (Z.shiftl 1 25))
    by reflexivity.
  destruct (Hbit Hrange Hwire) as (Hdec & Hset & _).
  split; [exact Hdec | exact Hset].
Defined.

(** ** Trimming *)

Lemma skip_leading_split (str : list Z) :
  exists pre,
    str = (pre ++ skip_leading str)%list /\ forallb isspace pre = true.
Proof.
  induction str as [|c t (pre & Hsplit & Hpre)]; simpl.
  - exists []. split; reflexivity.
  - destruct (isspace c) eqn:Hc.
    + exists (c :: pre). simpl. rewrite Hc, Hpre. split; [| reflexivity].
      f_equal. exact Hsplit.
    + exists []. split; reflexivity.
Qed.

Lemma skip_leading_head (str : list Z) (c : Z) (t : list Z) :
  skip_leading str = c :: t -> isspace c = false.
Proof.
  induction str as [|d u IH]; simpl; [discriminate |].
  destruct (isspace d) eqn:Hd; [exact IH |].
  intros E. injection E as <- _. exact Hd.
Qed.

Lemma skip_leading_clean (str : list Z) :
  (forall c t, str = c :: t -> isspace c = false) -> skip_leading str = str.
Proof.
  destruct str as [|c t]; intros Hclean; simpl; [reflexivity |].
  rewrite (Hclean c t eq_refl). reflexivity.
Qed.

Lemma skip_leading_spaces (str : list Z) :
  forallb isspace str = true -> skip_leading str = [].
Proof.
  induction str as [|c t IH]; simpl; [reflexivity |].
  destruct (isspace c); simpl; [exact IH | discriminate].
Qed.

(** One step of the trailing loop, seen from the last character. *)
Lemma strip_trailing_snoc (str : list Z) (c : Z) :
  strip_trailing (List.length (str ++ [c])) (str ++ [c])
  = if isspace c then strip_trailing (List.length str) str
    else (str ++ [c])%list.
Proof.
  rewrite length_app, Nat.add_1_r. simpl.
  assert (Hlast : load (str ++ [c]) (List.length str) = c).
  { unfold load. rewrite app_nth2, Nat.sub_diag by lia. reflexivity. }
  assert (Hfront : firstn (List.length str) (str ++ [c]) = str).
  { rewrite firstn_app, Nat.sub_diag, firstn_all. simpl.
    apply app_nil_r. }
  rewrite Hlast, Hfront. reflexivity.
Qed.

Lemma strip_trailing_split (str : list Z) :
  exists post,
    str = (strip_trailing (List.length str) str ++ post)%list /\
    forallb isspace post = true.
Proof.
  induction str as [|c t (post & Hsplit & Hpost)] using rev_ind.
  - exists []. split; reflexivity.
  - rewrite strip_trailing_snoc. destruct (isspace c) eqn:Hc.
    + exists (post ++ [c])%list. split.
      * rewrite app_assoc, <- Hsplit. reflexivity.
      * rewrite forallb_app, Hpost. simpl. rewrite Hc. reflexivity.
    + exists []. split; [symmetry; apply app_nil_r | reflexivity].
Qed.

Lemma strip_trailing_last (str t : list Z) (c : Z) :
  strip_trailing (List.length str) str = (t ++ [c])%list ->
  isspace c = false.
Proof.
  induction str as [|d u IH] using rev_ind.
  - simpl. intros E. destruct t; discriminate E.
  - rewrite strip_trailing_snoc. destruct (isspace d) eqn:Hd; [exact IH |].
    intros E. apply app_inj_tail in E. destruct E as [_ <-]. exact Hd.
Qed.

Lemma strip_trailing_clean (str : list Z) :
  (forall t c, str = (t ++ [c])%list -> isspace c = false) ->
  strip_trailing (List.length str) str = str.
Proof.
  destruct str as [|c t _] using rev_ind; intros Hclean; [reflexivity |].
  rewrite strip_trailing_snoc, (Hclean t c eq_refl). reflexivity.
Qed.

Lemma strip_trailing_head (str : list Z) (c : Z) (t : list Z) :
  (forall d u, str = d :: u -> isspace d = false) ->
  strip_trailing (List.length str) str = c :: t ->
  isspace c = false.
Proof.
  intros Hclean Hstrip.
  destruct (strip_trailing_split str) as (post & Hsplit & _).
  rewrite Hstrip in Hsplit. simpl in Hsplit.
  exact (Hclean c _ Hsplit).
Qed.

(** C5. [trim] is idempotent and returns an already trimmed string
    unchanged; a string of white space only trims to the empty string;
    and [trim] returns the part of its argument between a leading and a
    trailing run of white space, itself neither starting nor ending with
    white space, so nothing inside it is touched. *)
Theorem trim_spec (str : list Z) :
  trim (trim str) = trim str /\
  ((forall c t, str = c :: t -> isspace c = false) ->
   (forall t c, str = (t ++ [c])%list -> isspace c = false) ->
   trim str = str) /\
  (forallb isspace str = true -> trim str = []) /\
  (exists pre post,
     str = (pre ++ trim str ++ post)%list /\
     forallb isspace pre = true /\ forallb isspace post = true) /\
  (forall c t, trim str = c :: t -> isspace c = false) /\
  (forall t c, trim str = (t ++ [c])%list -> isspace c = false).
Proof.
  assert (Hhead : forall c t, trim str = c :: t -> isspace c = false).
  { intros c t. unfold trim. apply strip_trailing_head.
    intros d u. apply skip_leading_head. }
  assert (Hlast : forall t c, trim str = (t ++ [c])%list -> isspace c = false).
  { intros t c. unfold trim. apply strip_trailing_last. }
  assert (Hfix : forall s,
             (forall c t, s = c :: t -> isspace c = false) ->
             (forall t c, s = (t ++ [c])%list -> isspace c = false) ->
             trim s = s).
  { intros s Hs1 Hs2. unfold trim. rewrite (skip_leading_clean s Hs1).
    apply strip_trailing_clean. exact Hs2. }
  split; [apply Hfix; assumption |].
  split; [apply Hfix |].
  split.
  { intros Hspaces. unfold trim.
    rewrite (skip_leading_spaces str Hspaces). reflexivity. }
  split; [| split; assumption].
  destruct (skip_leading_split str) as (pre & Hpre & Hpre_space).
  destruct (strip_trailing_split (skip_leading str))
    as (post & Hpost & Hpost_space).
  exists pre, post. unfold trim.
  rewrite <- Hpost. auto.
Qed.

Lemma trim_spec_witness :
  trim (bytes_of_string "  a  b ") = bytes_of_string "a  b" /\
  trim (trim (bytes_of_string "  a  b ")) = trim (bytes_of_string "  a  b ") /\
  trim (bytes_of_string "a  b") = bytes_of_string "a  b".
Proof.
  split; [reflexivity |].
  split; [exact (proj1 (trim_spec (bytes_of_string "  a  b "))) |].
  apply (proj1 (proj2 (trim_spec (bytes_of_string "a  b")))).
  - intros c t E. injection E as <- _. reflexivity.
  - intros t c E.
    change (bytes_of_string "a  b") with ([97; 32; 32] ++ [98])%list in E.
    apply app_inj_tail in E. destruct E as [_ <-]. reflexivity.
Defined.

(** ** Text lemmas *)

Lemma append_assoc (a b c : string) : (a ++ b) ++ c = a ++ (b ++ c).
Proof.
  induction a as [|x a IH]; simpl; [reflexivity | rewrite IH; reflexivity].
Qed.

Lemma append_nil_r (a : string) : a ++ "" = a.
Proof.
  induction a as [|x a IH]; simpl; [reflexivity | rewrite IH; reflexivity].
Qed.

Lemma length_append (a b : string) :
  String.length (a ++ b) = (String.length a + String.length b)%nat.
Proof.
  induction a as [|x a IH]; simpl; [reflexivity | rewrite IH; reflexivity].
Qed.

Lemma length_hex_digits (n : nat) (z : Z) : String.length (hex_digits n z) = n.
Proof.
  revert z. induction n as [|n IH]; intros z; simpl; [reflexivity |].
  rewrite length_append, IH. simpl. lia.
Qed.

(** A value that fits [width] hexadecimal digits is printed with exactly
    that many. *)
Lemma fmt_0x_exact (width : nat) (z : Z) :
  (0 < width)%nat -> 0 <= z < 2 ^ (4 * Z.of_nat width) ->
  fmt_0x width z = hex_digits width z.
Proof.
  intros Hwidth Hz. unfold fmt_0x, hex_size. f_equal.
  apply Nat.max_l.
  destruct (Z.eq_dec z 0) as [-> | Hnz]; [simpl; lia |].
  assert (Hlog : Z.log2 z < 4 * Z.of_nat width)
    by (apply Z.log2_lt_pow2; lia).
  assert (Hq : Z.log2 z / 4 < Z.of_nat width)
    by (apply Z.div_lt_upper_bound; lia).
  pose proof (Z.log2_nonneg z).
  assert (0 <= Z.log2 z / 4) by (apply Z.div_pos; lia).
  lia.
Qed.

Lemma to_unsigned_range (w x : Z) : 0 <= w -> 0 <= to_unsigned w x < 2 ^ w.
Proof.
  intros Hw. unfold to_unsigned. apply Z.mod_pos_bound.
  apply Z.pow_pos_nonneg; lia.
Qed.

(** ** The error dump *)

Lemma sense_bytes_firstn (info : ErrorInfo_struct) (n i : nat) :
  (i + n <= List.length (SenseInfo info))%nat ->
  sense_bytes info n i
  = fold_right append ""
      (map (fun b => " 0x" ++ fmt_0x 2 (u8 b))
         (firstn n (skipn i (SenseInfo info)))).
Proof.
  revert i. induction n as [|n IH]; intros i Hlen; simpl; [reflexivity |].
  destruct (skipn i (SenseInfo info)) as [|b rest] eqn:Hskip.
  - assert (List.length (skipn i (SenseInfo info)) = 0%nat)
      by (rewrite Hskip; reflexivity).
    rewrite length_skipn in *. lia.
  - simpl. rewrite IH by lia.
    assert (Hb : load (SenseInfo info) i = b).
    { unfold load. rewrite <- (firstn_skipn i (SenseInfo info)) at 1.
      rewrite app_nth2 by (rewrite length_firstn; lia).
      rewrite length_firstn, Nat.min_l, Nat.sub_diag, Hskip by lia.
      reflexivity. }
    assert (Hrest : skipn (S i) (SenseInfo info) = rest).
    { replace (S i) with (1 + i)%nat by lia.
      rewrite <- skipn_skipn, Hskip. reflexivity. }
    rewrite Hb, Hrest. reflexivity.
Qed.

Section Transport.
Context `{hpsa_h} `{hpsa_layout} (h : host).

(** The text [print_cmd_error] writes. *)
Lemma print_cmd_error_text (info : ErrorInfo_struct) (w : world) :
  List.length (SenseInfo info) = SENSEINFOBYTES ->
  exists w',
    print_cmd_error info w = (Return tt, w') /\
    stdout w' = stdout w /\ errno w' = errno w /\ calls w' = calls w /\
    stderr w'
    = stderr w
      ++ "HPSA SCSI error info:" ++ nl
      ++ tab ++ "ScsiStatus: 0x" ++ fmt_0x 2 (u8 (ScsiStatus info)) ++ nl
      ++ tab ++ "SenseLen: " ++ fmt_d (u8 (SenseLen info)) ++ nl
      ++ tab ++ "CommandStatus: 0x" ++ fmt_0x 4 (u16 (CommandStatus info))
      ++ nl
      ++ tab ++ "ResidualCnt: 0x" ++ fmt_0x 8 (u32 (ResidualCnt info)) ++ nl
      ++ tab ++ "SenseInfo:"
      ++ (if u8 (SenseLen info) =? 0 then " <none>"
          else fold_right append ""
                 (map (fun b => " 0x" ++ fmt_0x 2 (u8 b))
                    (firstn
                       (Z.to_nat (Z.min (u8 (SenseLen info))
                                    (Z.of_nat SENSEINFOBYTES)))
                       (SenseInfo info))))
      ++ nl.
Proof.
  intros Hlen. unfold print_cmd_error, bind, print_err.
  destruct (Z.eqb_spec (u8 (SenseLen info)) 0) as [Hzero | Hnz].
  - eexists. split; [reflexivity |]. cbn [stdout stderr errno calls].
    repeat split. rewrite !append_assoc. reflexivity.
  - eexists. split; [reflexivity |]. cbn [stdout stderr errno calls].
    repeat split. rewrite !append_assoc. do 20 f_equal.
    assert (Hclamp :
              (if u8 (SenseLen info) >? Z.of_nat SENSEINFOBYTES
               then Z.of_nat SENSEINFOBYTES else u8 (SenseLen info))
              = Z.min (u8 (SenseLen info)) (Z.of_nat SENSEINFOBYTES)).
    { destruct (Z.gtb_spec (u8 (SenseLen info)) (Z.of_nat SENSEINFOBYTES));
        lia. }
    rewrite Hclamp, sense_bytes_firstn by (simpl; lia).
    reflexivity.
Qed.

(** C6. When the [ioctl] call returns 0 and leaves a nonzero command
    status in the error information, [really_exec_cmd] writes to the
    error stream the scsi status, the sense length, the command status
    and the residual count, then the first min(sense length, capacity)
    bytes of the sense buffer in hexadecimal when the sense length is
    not zero and the marker <none> when it is, then the fatal line that
    names the command, and the process exits with status 1. *)
Theorem really_exec_cmd_command_failure (path : option string)
    (fd cmd_num : Z) (cmd_name : string) (buf : Z) (data : list Z)
    (size : Z) (w : world) :
  recognized cmd_num ->
  size <= UINT16_MAX ->
  let a := sys_ioctl h (calls w) fd (filled zero_cmd cmd_num buf size) data in
  let info := ioctl_error_info a in
  let shown :=
    firstn (Z.to_nat (Z.min (u8 (SenseLen info)) (Z.of_nat SENSEINFOBYTES)))
      (SenseInfo info) in
  ioctl_rc a = 0 ->
  u16 (CommandStatus info) <> 0 ->
  List.length (SenseInfo info) = SENSEINFOBYTES ->
  exists w',
    really_exec_cmd h path fd cmd_num cmd_name buf data size w
    = (Exit 1, w') /\
    stdout w' = stdout w /\
    List.length shown
    = Z.to_nat (Z.min (u8 (SenseLen info)) (Z.of_nat SENSEINFOBYTES)) /\
    stderr w'
    = stderr w
      ++ "HPSA SCSI error info:" ++ nl
      ++ tab ++ "ScsiStatus: 0x" ++ fmt_0x 2 (u8 (ScsiStatus info)) ++ nl
      ++ tab ++ "SenseLen: " ++ fmt_d (u8 (SenseLen info)) ++ nl
      ++ tab ++ "CommandStatus: 0x" ++ fmt_0x 4 (u16 (CommandStatus info))
      ++ nl
      ++ tab ++ "ResidualCnt: 0x" ++ fmt_0x 8 (u32 (ResidualCnt info)) ++ nl
      ++ tab ++ "SenseInfo:"
      ++ (if u8 (SenseLen info) =? 0 then " <none>"
          else fold_right append ""
                 (map (fun b => " 0x" ++ fmt_0x 2 (u8 b)) shown))
      ++ nl
      ++ "FATAL ERROR: " ++ fmt_s path ++ ": Command " ++ cmd_name
      ++ " failed" ++ nl.
Proof.
  intros Hop Hsize a info shown Hrc Hstatus Hlen.
  set (w1 := {| stdout := stdout w; stderr := stderr w;
                errno := ioctl_errno a;
                calls := (calls w ++
                          [ioctl_call fd (filled zero_cmd cmd_num buf size)
                             (ioctl_rc a)])%list |}).
  destruct (print_cmd_error_text info w1 Hlen)
    as (w2 & Hprint & Hout & _ & _ & Herr).
  eexists. split.
  - unfold really_exec_cmd, bind at 1, assert_ok.
    rewrite (fill_cmd_returns _ _ _ _ Hop Hsize).
    unfold bind at 1. fold a. fold w1. rewrite Hrc.
    unfold bind at 1. cbn [Z.eqb ret].
    unfold bind at 1. fold info.
    destruct (Z.eqb_spec (u16 (CommandStatus info)) 0) as [E | _];
      [contradiction |].
    unfold bind at 1. rewrite Hprint.
    unfold die_dev, die, really_die, bind, print_err, exit. reflexivity.
  - cbn [stdout stderr]. rewrite Hout, Herr.
    split; [reflexivity |]. split.
    + unfold shown. rewrite length_firstn, Hlen.
      pose proof (to_unsigned_range 8 (SenseLen info)) as Hr. fold u8 in Hr.
      lia.
    + subst w1. cbn [stderr]. fold shown. rewrite !append_assoc.
      reflexivity.
Qed.

End Transport.

Lemma really_exec_cmd_command_failure_witness :
  exists w',
    @really_exec_cmd sample_headers
      host_command_fails (Some "/dev/sg0") 3 0x11
      "BMIC_IDENTIFY_CONTROLLER" 4096 (repeat 0 64) 64 initial_world
    = (Exit 1, w') /\
    stdout w' = "" /\
    List.length
      (firstn (Z.to_nat (Z.min (u8 3) 32)) (map Z.of_nat (seq 112 32)))
    = 3%nat.
Proof.
  destruct (@really_exec_cmd_command_failure sample_headers
              host_command_fails (Some "/dev/sg0")
              3 0x11 "BMIC_IDENTIFY_CONTROLLER" 4096 (repeat 0 64) 64
              initial_world)
    as (w' & Hrun & Hout & Hshown & _).
  - left. reflexivity.
  - unfold UINT16_MAX. lia.
  - reflexivity.
  - vm_compute. discriminate.
  - reflexivity.
  - exists w'. split; [exact Hrun |]. split; [exact Hout | exact Hshown].
Defined.

(** ** The report *)

Lemma testbit_u8_high (v n : Z) : 8 <= n -> Z.testbit (u8 v) n = false.
Proof.
  intros Hn. unfold u8, to_unsigned. apply Z.mod_pow2_bits_high. lia.
Qed.

Lemma below_pow2_of_bits (x k : Z) :
  0 <= x -> 0 <= k -> (forall n, k <= n -> Z.testbit x n = false) ->
  x < 2 ^ k.
Proof.
  intros Hx Hk Hbits.
  destruct (Z.lt_ge_cases x (2 ^ k)) as [Hlt | Hge]; [exact Hlt |].
  assert (Hpos : 0 < x) by (pose proof (Z.pow_pos_nonneg 2 k); lia).
  pose proof (Z.bit_log2 x Hpos) as Htop.
  rewrite Hbits in Htop; [discriminate |].
  apply Z.log2_le_pow2; assumption.
Qed.

Lemma le32toh_field_range (off : nat) (b : list Z) :
  0 <= le32toh_field off b < 2 ^ 32.
Proof.
  assert (Hbyte : forall v, 0 <= u8 v)
    by (intros v; apply (to_unsigned_range 8); lia).
  assert (Hnonneg : 0 <= le32toh_field off b).
  { unfold le32toh_field.
    repeat (apply Z.lor_nonneg; split);
      try apply Z.shiftl_nonneg; apply Hbyte. }
  split; [exact Hnonneg |].
  apply below_pow2_of_bits; [exact Hnonneg | lia |].
  intros n Hn. unfold le32toh_field.
  rewrite !Z.lor_spec, !Z.shiftl_spec by lia.
  rewrite !testbit_u8_high by lia. reflexivity.
Qed.

Section Report.
Context `{hpsa_h} `{hpsa_layout} (h : host).

Lemma print_info_str_buf_text (var_name : string) (off len : nat)
    (record : list Z) :
  print_info_str_buf var_name (field off len record) len
  = print_out (var_name ++ "='" ++ shown_text off len record ++ "'" ++ nl).
Proof. reflexivity. Qed.

Lemma fmt_d_flag (controller_id : list Z) :
  fmt_d (is_hba_mode_supported controller_id)
  = if Z.testbit
         (le32toh_field offsetof_yet_more_controller_flags controller_id)
         HBA_MODE_SUPP_BIT
    then "1" else "0".
Proof.
  rewrite is_hba_mode_supported_testbit.
  destruct (Z.testbit _ _); reflexivity.
Qed.

Lemma print_report_text (controller_id controller_params : list Z)
    (w : world) :
  print_report controller_id controller_params w
  = (Return tt,
     {| stdout := stdout w ++ report_text controller_id controller_params;
        stderr := stderr w; errno := errno w; calls := calls w |}).
Proof.
  unfold print_report, print_info_fw_rev.
  rewrite !print_info_str_buf_text.
  unfold bind, print_out. cbn [stdout stderr errno calls].
  rewrite fmt_d_flag.
  rewrite !(fmt_0x_exact 8) by (try (simpl; lia); apply le32toh_field_range).
  unfold report_text. rewrite !append_assoc. reflexivity.
Qed.

End Report.

(** ** The steps of [main] *)

Section Steps.
Context `{hpsa_h} `{hpsa_layout} (h : host).

Lemma die_eq (A : Type) (message : string) (w : world) :
  @die A message w
  = (Exit 1,
     {| stdout := stdout w; stderr := stderr w ++ fatal message;
        errno := errno w; calls := calls w |}).
Proof. reflexivity. Qed.

Lemma parse_options_eq (rs : list getopt_return) (action : cli_action)
    (path : option string) (w : world) :
  parse_options rs action path w
  = match rejected rs with
    | Some message => die message w
    | None => (Return (selected rs action path), w)
    end.
Proof.
  revert action path.
  induction rs as [|r rs IH]; intros action path; simpl; [reflexivity |].
  destruct (opt r =? -1); [reflexivity |].
  destruct (opt r =? 104); [apply IH |].
  destruct (opt r =? 118); [apply IH |].
  destruct (opt r =? 105); [apply IH |]. simpl.
  destruct (opt r =? 63); [reflexivity |].
  destruct (opt r =? 58); reflexivity.
Qed.

Lemma selected_coherent (rs : list getopt_return) (action : cli_action)
    (path : option string) :
  coherent (action, path) -> coherent (selected rs action path).
Proof.
  revert action path.
  induction rs as [|r rs IH]; intros action path Hc; simpl; [exact Hc |].
  destruct (opt r =? -1); [exact Hc |].
  destruct (opt r =? 104); [apply IH; exact I |].
  destruct (opt r =? 118); [apply IH; exact I |].
  destruct (opt r =? 105); [apply IH; eexists; reflexivity |].
  apply IH. exact Hc.
Qed.

Lemma choice_coherent : coherent (choice h).
Proof. apply selected_coherent. reflexivity. Qed.

Lemma print_cmd_error_eq (info : ErrorInfo_struct) (w : world) :
  print_cmd_error info w
  = (Return tt,
     {| stdout := stdout w; stderr := stderr w ++ dump_text info;
        errno := errno w; calls := calls w |}).
Proof.
  unfold print_cmd_error, bind, print_err, dump_text.
  destruct (u8 (SenseLen info) =? 0); cbn [stdout stderr errno calls];
    rewrite !append_assoc; [reflexivity |].
  replace (if u8 (SenseLen info) >? Z.of_nat SENSEINFOBYTES
           then Z.of_nat SENSEINFOBYTES else u8 (SenseLen info))
    with (Z.min (u8 (SenseLen info)) (Z.of_nat SENSEINFOBYTES));
    [reflexivity |].
  destruct (Z.gtb_spec (u8 (SenseLen info)) (Z.of_nat SENSEINFOBYTES)); lia.
Qed.

Lemma really_exec_cmd_eq (p : string) (fd cmd_num : Z) (cmd_name : string)
    (buf : Z) (data : list Z) (size : Z) (w : world) :
  recognized cmd_num -> size <= UINT16_MAX ->
  let cmd := filled zero_cmd cmd_num buf size in
  let a := sys_ioctl h (calls w) fd cmd data in
  really_exec_cmd h (Some p) fd cmd_num cmd_name buf data size w
  = if command_ok a then (Return (ioctl_data a), after_ioctl fd cmd a w)
    else (Exit 1,
          {| stdout := stdout w;
             stderr := stderr w ++ failure_text h p cmd_name a;
             errno := ioctl_errno a;
             calls := calls (after_ioctl fd cmd a w) |}).
Proof.
  intros Hop Hsize cmd a.
  unfold really_exec_cmd, bind at 1, assert_ok.
  rewrite (fill_cmd_returns _ _ _ _ Hop Hsize).
  unfold bind at 1. fold cmd. fold a.
  unfold command_ok, failure_text.
  destruct (ioctl_rc a =? 0); cbn [andb].
  - unfold bind at 1. unfold ret at 1. unfold bind at 1.
    destruct (u16 (CommandStatus (ioctl_error_info a)) =? 0);
      [reflexivity |].
    unfold bind at 1. rewrite print_cmd_error_eq.
    unfold die_dev. rewrite die_eq.
    cbn [stdout stderr errno calls after_ioctl fmt_s].
    rewrite append_assoc. reflexivity.
  - unfold bind at 1. unfold die_dev_errno, die_dev. rewrite die_eq.
    cbn [stdout stderr errno calls after_ioctl fmt_s].
    unfold errno_text. rewrite !append_assoc. reflexivity.
Qed.

End Steps.

Section Runs.
Context `{hpsa_h} `{hpsa_layout} (h : host).

Lemma open_dev_eq (p : string) (w : world) :
  let r := sys_open h (calls w) p O_RDWR in
  open_dev h p w
  = if fst r =? -1 then
      (Exit 1,
       {| stdout := stdout w;
          stderr := stderr w
                    ++ fatal (p ++ ": Unable to open device r/w"
                              ++ errno_text h (snd r));
          errno := snd r;
          calls := (calls w ++ [open_call p O_RDWR (fst r)])%list |})
    else
      (Return (fst r),
       {| stdout := stdout w; stderr := stderr w; errno := snd r;
          calls := (calls w ++ [open_call p O_RDWR (fst r)])%list |}).
Proof.
  intros r. unfold open_dev, bind. fold r.
  destruct r as [fd e]. cbn [fst snd].
  destruct (fd =? -1); reflexivity.
Qed.

Lemma close_dev_eq (p : string) (fd : Z) (w : world) :
  let r := sys_close h (calls w) fd in
  close_dev h (Some p) fd w
  = if fst r =? 0 then
      (Return tt,
       {| stdout := stdout w; stderr := stderr w; errno := snd r;
          calls := (calls w ++ [close_call fd (fst r)])%list |})
    else
      (Exit 1,
       {| stdout := stdout w;
          stderr := stderr w
                    ++ fatal (p ++ ": close() failed" ++ errno_text h (snd r));
          errno := snd r;
          calls := (calls w ++ [close_call fd (fst r)])%list |}).
Proof.
  intros r. unfold close_dev, bind. fold r.
  destruct r as [rc e]. cbn [fst snd].
  destruct (rc =? 0); reflexivity.
Qed.

Lemma print_info_eq (p : string) (fd : Z) (w : world) :
  sizeof_identify_controller <= UINT16_MAX ->
  sizeof_controller_parameters <= UINT16_MAX ->
  let a1 := identify_answer h fd w in
  let w1 := after_ioctl fd (identify_cmd h) a1 w in
  let a2 := params_answer h fd w in
  let w2 := after_ioctl fd (params_cmd h) a2 w1 in
  print_info h (Some p) fd w
  = if command_ok a1 then
      if command_ok a2 then
        (Return tt,
         {| stdout := stdout w
                      ++ report_text (ioctl_data a1) (ioctl_data a2);
            stderr := stderr w; errno := errno w2; calls := calls w2 |})
      else
        (Exit 1,
         {| stdout := stdout w;
            stderr := stderr w
                      ++ failure_text h p "BMIC_SENSE_CONTROLLER_PARAMETERS"
                           a2;
            errno := ioctl_errno a2; calls := calls w2 |})
    else
      (Exit 1,
       {| stdout := stdout w;
          stderr := stderr w
                    ++ failure_text h p "BMIC_IDENTIFY_CONTROLLER" a1;
          errno := ioctl_errno a1; calls := calls w1 |}).
Proof.
  intros Hid Hparams a1 w1 a2 w2.
  unfold print_info, identify_controller, sense_controller_parameters.
  unfold bind at 1.
  rewrite really_exec_cmd_eq by (assumption || (left; reflexivity)).
  fold (identify_cmd h). fold (identify_answer h fd w). fold a1. fold w1.
  destruct (command_ok a1); [| reflexivity].
  unfold bind at 1.
  rewrite really_exec_cmd_eq by (assumption || (right; reflexivity)).
  fold (params_cmd h).
  change (sys_ioctl h (calls w1) fd (params_cmd h)
            (repeat 0 (Z.to_nat sizeof_controller_parameters)))
    with a2.
  fold w2.
  destruct (command_ok a2); [| reflexivity].
  rewrite print_report_text. reflexivity.
Qed.

(** Every run of the program has one of the shapes of [run_shape],
    provided the two response records are small enough for the length
    field of the command. *)
Lemma run_classified :
  sizeof_identify_controller <= UINT16_MAX ->
  sizeof_controller_parameters <= UINT16_MAX ->
  run_shape h (fst (run h)) (snd (run h)).
Proof.
  intros Hid Hparams.
  set (P := fun r : option Z * world => run_shape h (fst r) (snd r)).
  change (P (run h)).
  unfold run, main. unfold bind at 1.
  rewrite parse_options_eq.
  destruct (rejected (getopt_returns h)) as [message |] eqn:Hrej.
  { rewrite die_eq. apply usage_error. exact Hrej. }
  change (selected (getopt_returns h) ACTION_UNKNOWN None) with (choice h).
  pose proof (choice_coherent h) as Hcoh.
  destruct (choice h) as [action path] eqn:Hchoice. cbn [fst snd].
  unfold bind at 1.
  destruct (Z.gtb_spec (argc h) (optind h)) as [Hextra | Hnone].
  { rewrite die_eq. apply operand_error; [assumption | lia]. }
  unfold ret at 1.
  destruct path as [p |].
  - unfold bind at 1. rewrite open_dev_eq.
    change (sys_open h (calls initial_world) p O_RDWR) with (opened h p).
    destruct (Z.eqb_spec (fst (opened h p)) (-1)) as [Hfd | Hfd].
    { rewrite Hfd. apply (open_error h action p); assumption. }
    change {| stdout := stdout initial_world; stderr := stderr initial_world;
              errno := snd (opened h p);
              calls := (calls initial_world
                        ++ [open_call p O_RDWR (fst (opened h p))])%list |}
      with (world_opened h p).
    destruct action.
    + (* help *)
      unfold bind at 1. unfold print_help, print_err.
      unfold bind at 1.
      destruct (Z.eqb_spec (fst (opened h p)) (-1)) as [E | _];
        [contradiction |].
      rewrite close_dev_eq. cbn [stdout stderr errno calls].
      set (w := {| stdout := ""; stderr := help_text (argv0 h);
                   errno := snd (opened h p);
                   calls := [open_call p O_RDWR (fst (opened h p))] |}).
      assert (Hw : world_acted h ACTION_HELP p = Some w) by reflexivity.
      change (calls (world_opened h p)) with (calls w).
      destruct (Z.eqb_spec (fst (sys_close h (calls w) (fst (opened h p)))) 0)
        as [Hrc | Hrc].
      * unfold bind, ret. cbn [fst snd]. rewrite Hrc.
        exact (done_with_device h ACTION_HELP p w Hrej Hnone Hchoice Hfd Hw
                 Hrc).
      * exact (close_error h ACTION_HELP p w Hrej Hnone Hchoice Hfd Hw Hrc).
    + (* version *)
      unfold bind at 1. unfold print_version, print_out.
      unfold bind at 1.
      destruct (Z.eqb_spec (fst (opened h p)) (-1)) as [E | _];
        [contradiction |].
      rewrite close_dev_eq. cbn [stdout stderr errno calls].
      set (w := {| stdout := hpsahba_version ++ nl; stderr := "";
                   errno := snd (opened h p);
                   calls := [open_call p O_RDWR (fst (opened h p))] |}).
      assert (Hw : world_acted h ACTION_VERSION p = Some w) by reflexivity.
      change (calls (world_opened h p)) with (calls w).
      destruct (Z.eqb_spec (fst (sys_close h (calls w) (fst (opened h p)))) 0)
        as [Hrc | Hrc].
      * unfold bind, ret. cbn [fst snd]. rewrite Hrc.
        exact (done_with_device h ACTION_VERSION p w Hrej Hnone Hchoice Hfd
                 Hw Hrc).
      * exact (close_error h ACTION_VERSION p w Hrej Hnone Hchoice Hfd Hw
                 Hrc).
    + (* info *)
      unfold bind at 1. rewrite (print_info_eq p _ _ Hid Hparams).
      set (fd := fst (opened h p)).
      set (a1 := identify_answer h fd (world_opened h p)).
      set (a2 := params_answer h fd (world_opened h p)).
      destruct (command_ok a1) eqn:Hok1.
      2:{ exact (identify_error h p Hrej Hnone Hchoice Hfd Hok1). }
      destruct (command_ok a2) eqn:Hok2.
      2:{ exact (params_error h p Hrej Hnone Hchoice Hfd Hok1 Hok2). }
      unfold bind at 1.
      destruct (Z.eqb_spec fd (-1)) as [E | _]; [contradiction |].
      rewrite close_dev_eq. cbn [stdout stderr errno calls].
      set (w := {| stdout := report_text (ioctl_data a1) (ioctl_data a2);
                   stderr := "";
                   errno := ioctl_errno a2;
                   calls := calls (after_ioctl fd (params_cmd h) a2
                                     (after_ioctl fd (identify_cmd h) a1
                                        (world_opened h p))) |}).
      assert (Hw : world_acted h ACTION_INFO p = Some w).
      { unfold world_acted. fold fd. fold a1. fold a2.
        rewrite Hok1, Hok2. reflexivity. }
      change (calls (after_ioctl fd (params_cmd h) a2
                       (after_ioctl fd (identify_cmd h) a1
                          (world_opened h p))))
        with (calls w).
      destruct (Z.eqb_spec (fst (sys_close h (calls w) fd)) 0) as [Hrc | Hrc].
      * unfold bind, ret. cbn [fst snd]. rewrite Hrc.
        exact (done_with_device h ACTION_INFO p w Hrej Hnone Hchoice Hfd Hw
                 Hrc).
      * exact (close_error h ACTION_INFO p w Hrej Hnone Hchoice Hfd Hw Hrc).
    + (* no action goes with no path *)
      discriminate Hcoh.
  - unfold bind at 1. unfold ret at 1.
    destruct action.
    + exact (done_without_device h ACTION_HELP Hrej Hnone Hchoice
               (or_introl eq_refl)).
    + exact (done_without_device h ACTION_VERSION Hrej Hnone Hchoice
               (or_intror eq_refl)).
    + destruct Hcoh as [q Hq]. discriminate Hq.
    + exact (no_action h Hrej Hnone Hchoice).
Qed.

End Runs.

(** ** The report of the info action *)

Lemma lines_ended_app (a b : string) :
  lines_ended (a ++ b) = (lines_ended a + lines_ended b)%nat.
Proof.
  induction a as [|c a IH]; simpl; [reflexivity | rewrite IH; lia].
Qed.

Lemma hex_digit_not_newline (d : Z) :
  Ascii.eqb (hex_digit d) (ascii_of_nat 10) = false.
Proof.
  destruct d as [|q|q]; [reflexivity | | reflexivity].
  do 4 (try destruct q as [q|q|]); reflexivity.
Qed.

Lemma lines_ended_hex_digits (n : nat) (z : Z) :
  lines_ended (hex_digits n z) = 0%nat.
Proof.
  revert z. induction n as [|n IH]; intros z; simpl; [reflexivity |].
  rewrite lines_ended_app, IH. simpl.
  rewrite hex_digit_not_newline. reflexivity.
Qed.

Section InfoReport.
Context `{hpsa_h} `{hpsa_layout} (h : host).

(** C3, as the program has it. When both commands succeed, [print_info]
    writes to the output stream ten entries, each ended by a newline, in
    this order: vendor id, product id, board id, software name, hardware
    name, running, ROM and recovery-ROM-inactive firmware revisions,
    capability flags, HBA mode supported.  Every entry but the last has
    its value between single quotes, the two numeric ones included: they
    are 0x and the eight hexadecimal digits of the field read least
    significant byte first.  The last entry, the derived one, is a bare
    1 or 0, after the bit of the capability flags.  The report ends ten
    lines and one more for every newline inside a string value: it is
    exactly ten lines when no string value holds a line break. *)
Theorem print_info_report (p : string) (fd : Z) (w : world) :
  sizeof_identify_controller <= UINT16_MAX ->
  sizeof_controller_parameters <= UINT16_MAX ->
  command_ok (identify_answer h fd w) = true ->
  command_ok (params_answer h fd w) = true ->
  let id := ioctl_data (identify_answer h fd w) in
  let params := ioctl_data (params_answer h fd w) in
  let board_id := le32toh_field offsetof_board_id id in
  let flags := le32toh_field offsetof_yet_more_controller_flags id in
  exists w',
    print_info h (Some p) fd w = (Return tt, w') /\
    stderr w' = stderr w /\
    String.length (hex_digits 8 board_id) = 8%nat /\
    String.length (hex_digits 8 flags) = 8%nat /\
    (forall v, 0 <= v < 2 ^ 32 ->
               field offsetof_board_id 4 id = le32_bytes v -> board_id = v) /\
    (forall v, 0 <= v < 2 ^ 32 ->
               field offsetof_yet_more_controller_flags 4 id = le32_bytes v ->
               flags = v) /\
    stdout w'
    = stdout w
      ++ "VENDOR_ID='"
      ++ shown_text offsetof_vendor_id VENDOR_ID_LEN id ++ "'" ++ nl
      ++ "PRODUCT_ID='"
      ++ shown_text offsetof_product_id PRODUCT_ID_LEN id ++ "'" ++ nl
      ++ "BOARD_ID='0x" ++ hex_digits 8 board_id ++ "'" ++ nl
      ++ "SOFTWARE_NAME='"
      ++ shown_text offsetof_software_name SOFTWARE_NAME_LEN params
      ++ "'" ++ nl
      ++ "HARDWARE_NAME='"
      ++ shown_text offsetof_hardware_name HARDWARE_NAME_LEN params
      ++ "'" ++ nl
      ++ "RUNNING_FIRM_REV='"
      ++ shown_text offsetof_running_firm_rev FIRMWARE_REV_LEN id
      ++ "'" ++ nl
      ++ "ROM_FIRM_REV='"
      ++ shown_text offsetof_rom_firm_rev FIRMWARE_REV_LEN id ++ "'" ++ nl
      ++ "REC_ROM_INACTIVE_REV='"
      ++ shown_text offsetof_rec_rom_inactive_rev FIRMWARE_REV_LEN id
      ++ "'" ++ nl
      ++ "YET_MORE_CONTROLLER_FLAGS='0x" ++ hex_digits 8 flags ++ "'" ++ nl
      ++ "HBA_MODE_SUPPORTED="
      ++ (if Z.testbit flags HBA_MODE_SUPP_BIT then "1" else "0") ++ nl /\
    lines_ended (stdout w')
    = (lines_ended (stdout w) + 10
       + lines_ended (shown_text offsetof_vendor_id VENDOR_ID_LEN id)
       + lines_ended (shown_text offsetof_product_id PRODUCT_ID_LEN id)
       + lines_ended
           (shown_text offsetof_software_name SOFTWARE_NAME_LEN params)
       + lines_ended
           (shown_text offsetof_hardware_name HARDWARE_NAME_LEN params)
       + lines_ended
           (shown_text offsetof_running_firm_rev FIRMWARE_REV_LEN id)
       + lines_ended (shown_text offsetof_rom_firm_rev FIRMWARE_REV_LEN id)
       + lines_ended
           (shown_text offsetof_rec_rom_inactive_rev FIRMWARE_REV_LEN id))%nat.
Proof.
  intros Hid Hparams Hok1 Hok2 id params board_id flags.
  eexists. split.
  - rewrite (print_info_eq h p fd w Hid Hparams), Hok1, Hok2. reflexivity.
  - cbn [stdout stderr].
    split; [reflexivity |].
    split; [apply length_hex_digits |].
    split; [apply length_hex_digits |].
    split; [intros v Hv Hwire; apply le32toh_field_le32_bytes; assumption |].
    split; [intros v Hv Hwire; apply le32toh_field_le32_bytes; assumption |].
    split; [reflexivity |].
    unfold report_text. fold id params board_id flags.
    repeat match goal with
           | |- context [shown_text ?off ?len ?record] =>
               generalize (shown_text off len record); intro
           end.
    rewrite !lines_ended_app, !lines_ended_hex_digits.
    destruct (Z.testbit flags HBA_MODE_SUPP_BIT); simpl; lia.
Qed.

End InfoReport.

Lemma print_info_report_witness :
  exists w',
    @print_info sample_headers sample_layout host_info (Some "/dev/sg0") 3
      initial_world = (Return tt, w') /\
    stderr w' = "".
Proof.
  destruct (@print_info_report sample_headers sample_layout host_info
              "/dev/sg0" 3 initial_world)
    as (w' & Hrun & Herr & _).
  - unfold UINT16_MAX. simpl. lia.
  - unfold UINT16_MAX. simpl. lia.
  - reflexivity.
  - reflexivity.
  - exists w'. split; [exact Hrun | exact Herr].
Defined.

(** Three runs of the info action against the report of the
    specification.  On the sample controller the run exits with status 0
    and its report is the specified one under neither reading of the
    derived field: the two numeric values are between quotes, and the
    last entry is the bare HBA_MODE_SUPPORTED=1.  On a controller whose
    product id holds a line break the run exits with status 0 and its
    report ends eleven lines. *)
Lemma print_info_report_counterexample :
  fst (sample_run host_info) = Some 0 /\
  stdout (snd (sample_run host_info))
  <> @report_as_specified sample_headers sample_layout false sample_id
       sample_params /\
  stdout (snd (sample_run host_info))
  <> @report_as_specified sample_headers sample_layout true sample_id
       sample_params /\
  stdout (snd (sample_run host_info))
  = "VENDOR_ID='ACME'" ++ nl
    ++ "PRODUCT_ID='Smart Array'" ++ nl
    ++ "BOARD_ID='0x103c1234'" ++ nl
    ++ "SOFTWARE_NAME='soft ware'" ++ nl
    ++ "HARDWARE_NAME='hard'" ++ nl
    ++ "RUNNING_FIRM_REV='1.0'" ++ nl
    ++ "ROM_FIRM_REV='2.1'" ++ nl
    ++ "REC_ROM_INACTIVE_REV=''" ++ nl
    ++ "YET_MORE_CONTROLLER_FLAGS='0x02000000'" ++ nl
    ++ "HBA_MODE_SUPPORTED=1" ++ nl /\
  fst (sample_run host_line_break) = Some 0 /\
  lines_ended (stdout (snd (sample_run host_line_break))) = 11%nat.
Proof.
  split; [reflexivity |].
  split; [apply String.eqb_neq; vm_compute; reflexivity |].
  split; [apply String.eqb_neq; vm_compute; reflexivity |].
  split; [| split]; vm_compute; reflexivity.
Qed.

(** ** Exit status *)


Section ExitStatus.
Context `{hpsa_h} `{hpsa_layout} (h : host).



(** The worlds in which an action has run to its end. *)
Lemma world_acted_cases (action : cli_action) (p : string) (w : world) :
  world_acted h action p = Some w ->
  let fd := fst (opened h p) in
  let a1 := identify_answer h fd (world_opened h p) in
  let a2 := params_answer h fd (world_opened h p) in
  (action = ACTION_HELP /\
   stdout w = "" /\ stderr w = help_text (argv0 h) /\
   calls w = [open_call p O_RDWR fd]) \/
  (action = ACTION_VERSION /\
   stdout w = hpsahba_version ++ nl /\ stderr w = "" /\
   calls w = [open_call p O_RDWR fd]) \/
  (action = ACTION_INFO /\
   command_ok a1 = true /\ command_ok a2 = true /\
   stdout w = report_text (ioctl_data a1) (ioctl_data a2) /\ stderr w = "" /\
   calls w = [open_call p O_RDWR fd;
              ioctl_call fd (identify_cmd h) (ioctl_rc a1);
              ioctl_call fd (params_cmd h) (ioctl_rc a2)]).
Proof.
  intros Hw fd a1 a2. destruct action; cbn [world_acted] in Hw.
  - left. injection Hw as <-. auto.
  - right. left. injection Hw as <-. auto.
  - right. right. fold fd a1 a2 in Hw.
    destruct (command_ok a1), (command_ok a2); try discriminate Hw.
    injection Hw as <-. auto 6.
  - discriminate Hw.
Qed.

Lemma produced_after_action (action : cli_action) (p : string)
    (w w' : world) :
  choice h = (action, Some p) ->
  world_acted h action p = Some w ->
  stdout w' = stdout w ->
  (exists rest, stderr w' = stderr w ++ rest) ->
  produced h w'.
Proof.
  intros Hchoice Hw Hout [rest Herr]. unfold produced. rewrite Hchoice.
  destruct (world_acted_cases _ _ _ Hw)
    as [(-> & _ & Hhelp & _)
       | [(-> & Hversion & _ & _) | (-> & _ & _ & Hreport & _ & _)]].
  - exists rest. rewrite Herr, Hhelp. reflexivity.
  - rewrite Hout. exact Hversion.
  - rewrite Hout. exact Hreport.
Qed.

Lemma shape_status (st : option Z) (w : world) :
  run_shape h st w -> st = Some 0 \/ st = Some 1.
Proof. intros Hshape. destruct Hshape; auto. Qed.

Lemma shape_succeeds (st : option Z) (w : world) :
  run_shape h st w -> (st = Some 0 <-> succeeds h).
Proof.
  intros Hshape. unfold succeeds.
  destruct Hshape as
    [message Hrej
    | Hrej Hextra
    | Hrej Hnone Hchoice
    | action Hrej Hnone Hchoice Haction
    | action p Hrej Hnone Hchoice Hfd
    | p Hrej Hnone Hchoice Hfd fd a1 Hok1
    | p Hrej Hnone Hchoice Hfd fd a1 a2 Hok1 Hok2
    | action p w Hrej Hnone Hchoice Hfd Hw fd Hrc
    | action p w Hrej Hnone Hchoice Hfd Hw fd rc e Hrc];
    rewrite ?Hchoice; (split; [try discriminate | intros (Hr & Ha & Hrest)]).
  - congruence.
  - lia.
  - contradiction.
  - intros _. destruct Haction as [-> | ->]; auto.
  - reflexivity.
  - destruct action; try contradiction; destruct Hrest as [Hopen _];
      contradiction.
  - destruct Hrest as (_ & w' & Hw' & _). cbn [world_acted] in Hw'.
    fold fd a1 in Hw'. rewrite Hok1 in Hw'. discriminate Hw'.
  - destruct Hrest as (_ & w' & Hw' & _). cbn [world_acted] in Hw'.
    fold fd a1 a2 in Hw'. rewrite Hok1, Hok2 in Hw'. discriminate Hw'.
  - intros _. split; [exact Hrej | split; [exact Hnone |]].
    destruct action; try (split; [exact Hfd | exists w; auto]).
    discriminate Hw.
  - reflexivity.
  - assert (Hclosed : exists w',
               world_acted h action p = Some w' /\
               fst (sys_close h (calls w') (fst (opened h p))) = 0).
    { destruct action; try contradiction; apply Hrest. }
    destruct Hclosed as (w' & Hw' & Hrc').
    rewrite Hw in Hw'. injection Hw' as <-. contradiction.
Qed.

Lemma shape_produced (st : option Z) (w : world) :
  run_shape h st w -> st = Some 0 -> produced h w.
Proof.
  intros Hshape Hst.
  destruct Hshape as
    [message Hrej
    | Hrej Hextra
    | Hrej Hnone Hchoice
    | action Hrej Hnone Hchoice Haction
    | action p Hrej Hnone Hchoice Hfd
    | p Hrej Hnone Hchoice Hfd fd a1 Hok1
    | p Hrej Hnone Hchoice Hfd fd a1 a2 Hok1 Hok2
    | action p w Hrej Hnone Hchoice Hfd Hw fd Hrc
    | action p w Hrej Hnone Hchoice Hfd Hw fd rc e Hrc];
    try discriminate Hst.
  - unfold produced. rewrite Hchoice.
    destruct Haction as [-> | ->]; cbn [stdout stderr].
    + exists "". symmetry. apply append_nil_r.
    + reflexivity.
  - apply (produced_after_action action p w); cbn [stdout stderr];
      [assumption | assumption | reflexivity |].
    exists "". symmetry. apply append_nil_r.
Qed.





End ExitStatus.

(** ** Fatal exits and the result of the action *)

Section FatalExits.
Context `{hpsa_h} `{hpsa_layout} (h : host).

Lemma report_text_not_empty (controller_id controller_params : list Z) :
  "" <> report_text controller_id controller_params.
Proof. unfold report_text. discriminate. Qed.

(** A world with nothing on the output stream and a fatal line first on
    the error stream holds the result of no action. *)
Lemma nothing_produced (w : world) (message : string) :
  coherent (choice h) ->
  stdout w = "" ->
  stderr w = fatal message ->
  ~ produced h w.
Proof.
  intros Hcoh Hout Herr. unfold produced.
  destruct (choice h) as [[ | | | ] [p |]]; rewrite ?Hout, ?Herr;
    try (intros []; fail).
  - intros [rest E]. discriminate E.
  - intros [rest E]. discriminate E.
  - discriminate.
  - discriminate.
  - apply report_text_not_empty.
Qed.

Lemma shape_fatal_after_result (st : option Z) (w : world) :
  run_shape h st w -> st = Some 1 ->
  (stdout w = "" /\ ~ produced h w) \/
  (produced h w /\
   exists action p w0,
     choice h = (action, Some p) /\
     world_acted h action p = Some w0 /\
     let fd := fst (opened h p) in
     let rc := fst (sys_close h (calls w0) fd) in
     rc <> 0 /\
     stdout w = stdout w0 /\
     calls w = (calls w0 ++ [close_call fd rc])%list /\
     stderr w
     = stderr w0
       ++ fatal (p ++ ": close() failed"
                 ++ errno_text h (snd (sys_close h (calls w0) fd)))).
Proof.
  intros Hshape Hst.
  pose proof (choice_coherent h) as Hcoh.
  destruct Hshape as
    [message Hrej
    | Hrej Hextra
    | Hrej Hnone Hchoice
    | action Hrej Hnone Hchoice Haction
    | action p Hrej Hnone Hchoice Hfd
    | p Hrej Hnone Hchoice Hfd fd a1 Hok1
    | p Hrej Hnone Hchoice Hfd fd a1 a2 Hok1 Hok2
    | action p w Hrej Hnone Hchoice Hfd Hw fd Hrc
    | action p w Hrej Hnone Hchoice Hfd Hw fd rc e Hrc];
    try discriminate Hst.
  - left. split; [reflexivity |].
    eapply nothing_produced; [assumption | reflexivity | reflexivity].
  - left. split; [reflexivity |].
    eapply nothing_produced; [assumption | reflexivity | reflexivity].
  - left. split; [reflexivity |].
    eapply nothing_produced; [assumption | reflexivity | reflexivity].
  - left. split; [reflexivity |].
    eapply nothing_produced; [assumption | reflexivity | reflexivity].
  - left. split; [reflexivity |].
    unfold produced. rewrite Hchoice. cbn [stdout].
    apply report_text_not_empty.
  - left. split; [reflexivity |].
    unfold produced. rewrite Hchoice. cbn [stdout].
    apply report_text_not_empty.
  - right. split.
    + apply (produced_after_action h action p w); cbn [stdout stderr];
        [assumption | assumption | reflexivity |].
      eexists. reflexivity.
    + exists action, p, w. cbn [stdout stderr calls]. fold fd rc e. auto 7.
Qed.

Lemma shape_calls_once (st : option Z) (w : world) :
  run_shape h st w ->
  (List.length (filter is_open (calls w)) <= 1)%nat /\
  (List.length (filter is_ioctl (calls w)) <= 2)%nat /\
  (List.length (filter is_close (calls w)) <= 1)%nat.
Proof.
  intros Hshape.
  destruct Hshape as
    [message Hrej
    | Hrej Hextra
    | Hrej Hnone Hchoice
    | action Hrej Hnone Hchoice Haction
    | action p Hrej Hnone Hchoice Hfd
    | p Hrej Hnone Hchoice Hfd fd a1 Hok1
    | p Hrej Hnone Hchoice Hfd fd a1 a2 Hok1 Hok2
    | action p w Hrej Hnone Hchoice Hfd Hw fd Hrc
    | action p w Hrej Hnone Hchoice Hfd Hw fd rc e Hrc];
    cbn [calls filter is_open is_ioctl is_close List.length]; try lia.
  - destruct (world_acted_cases h _ _ _ Hw)
      as [(_ & _ & _ & ->) | [(_ & _ & _ & ->) | (_ & _ & _ & _ & _ & ->)]];
      cbn [app filter is_open is_ioctl is_close List.length]; lia.
  - destruct (world_acted_cases h _ _ _ Hw)
      as [(_ & _ & _ & ->) | [(_ & _ & _ & ->) | (_ & _ & _ & _ & _ & ->)]];
      cbn [app filter is_open is_ioctl is_close List.length]; lia.
Qed.

(** C8, as the program has it. A run either completes the requested
    action and exits with status 0, or exits with status 1 in one of two
    ways: before any of the result is on the output stream, or, the one
    fatal exit that follows a result produced in full, because [close]
    failed on the device after the action.  Nothing is tried twice: at
    most one [open], one [ioctl] per command and one [close]. *)
Theorem fatal_exits :
  sizeof_identify_controller <= UINT16_MAX ->
  sizeof_controller_parameters <= UINT16_MAX ->
  let st := fst (run h) in
  let w := snd (run h) in
  (st = Some 0 \/ st = Some 1) /\
  (st = Some 0 -> produced h w) /\
  (st = Some 1 ->
   (stdout w = "" /\ ~ produced h w) \/
   (produced h w /\
    exists action p w0,
      choice h = (action, Some p) /\
      world_acted h action p = Some w0 /\
      let fd := fst (opened h p) in
      let rc := fst (sys_close h (calls w0) fd) in
      rc <> 0 /\
      stdout w = stdout w0 /\
      calls w = (calls w0 ++ [close_call fd rc])%list /\
      stderr w
      = stderr w0
        ++ fatal (p ++ ": close() failed"
                  ++ errno_text h (snd (sys_close h (calls w0) fd))))) /\
  (List.length (filter is_open (calls w)) <= 1)%nat /\
  (List.length (filter is_ioctl (calls w)) <= 2)%nat /\
  (List.length (filter is_close (calls w)) <= 1)%nat.
Proof.
  intros Hid Hparams st w.
  pose proof (run_classified h Hid Hparams) as Hshape.
  fold st w in Hshape.
  split; [exact (shape_status h _ _ Hshape) |].
  split; [exact (shape_produced h _ _ Hshape) |].
  split; [exact (shape_fatal_after_result _ _ Hshape) |].
  exact (shape_calls_once _ _ Hshape).
Qed.

End FatalExits.

(** ** The device and the action *)

Lemma known_options_accepted (rs : list getopt_return) :
  Forall known_option rs -> rejected rs = None.
Proof.
  induction 1 as [|r rs Hr _ IH]; simpl; [reflexivity |].
  destruct (opt r =? -1); [reflexivity |].
  destruct Hr as [-> | [-> | ->]]; simpl; exact IH.
Qed.

(** Once a path is set, or once an option i comes, a path is set at the
    end, and it is the argument of an option i unless it is the path set
    at the start. *)
Lemma selected_path (rs : list getopt_return) (action : cli_action)
    (path : option string) :
  Forall known_option rs ->
  path <> None \/ (exists r, In r rs /\ opt r = 105) ->
  exists p,
    snd (selected rs action path) = Some p /\
    (path = Some p \/ exists r, In r rs /\ opt r = 105 /\ optarg r = p).
Proof.
  intros Hknown. revert action path.
  induction Hknown as [|r rs Hr _ IH]; intros action path Hsome; simpl.
  - destruct Hsome as [Hpath | (r & [] & _)].
    destruct path as [p |]; [| contradiction]. exists p. auto.
  - assert (Hrest :
              forall action' path',
                path' = path \/ (opt r = 105 /\ path' = Some (optarg r)) ->
                (opt r = 105 -> path' = Some (optarg r)) ->
                exists p,
                  snd (selected rs action' path') = Some p /\
                  (path = Some p \/
                   exists r0, (r = r0 \/ In r0 rs) /\ opt r0 = 105 /\
                              optarg r0 = p)).
    { intros action' path' Hfrom Hi.
      destruct (IH action' path') as (p & Hp & Horigin).
      - destruct Hsome as [Hpath | (r0 & [<- | Hin] & Hopt)].
        + left. destruct Hfrom as [-> | [_ ->]]; [exact Hpath | discriminate].
        + left. rewrite (Hi Hopt). discriminate.
        + right. exists r0. auto.
      - exists p. split; [exact Hp |].
        destruct Horigin as [Hpath' | (r0 & Hin & Hopt & Harg)].
        + destruct Hfrom as [-> | [Hopt ->]]; [left; exact Hpath' |].
          right. exists r. injection Hpath' as <-. auto.
        + right. exists r0. auto. }
    destruct Hr as [Hopt | [Hopt | Hopt]]; rewrite Hopt; simpl;
      (apply Hrest; [auto | intros E; first [reflexivity | congruence]]).
Qed.

Lemma selected_last_action (rs : list getopt_return) (last : getopt_return)
    (action : cli_action) (path : option string) :
  Forall known_option (rs ++ [last]) ->
  fst (selected (rs ++ [last]) action path) = action_of last.
Proof.
  revert action path.
  induction rs as [|r rs IH]; intros action path Hknown;
    inversion Hknown as [|r0 rs0 Hr Hrest]; subst.
  - unfold action_of. simpl.
    destruct Hr as [-> | [-> | ->]]; reflexivity.
  - simpl. destruct Hr as [-> | [-> | ->]]; simpl; apply IH; exact Hrest.
Qed.

Section Device.
Context `{hpsa_h} `{hpsa_layout} (h : host).

Lemma shape_device (st : option Z) (w : world) (action : cli_action)
    (p : string) :
  run_shape h st w ->
  rejected (getopt_returns h) = None -> argc h <= optind h ->
  choice h = (action, Some p) ->
  let fd := fst (opened h p) in
  (exists rest, calls w = open_call p O_RDWR fd :: rest) /\
  (fd <> -1 -> action <> ACTION_INFO ->
   exists rc, calls w = [open_call p O_RDWR fd; close_call fd rc]) /\
  (st = Some 0 ->
   exists mid,
     calls w = (open_call p O_RDWR fd :: mid ++ [close_call fd 0])%list).
Proof.
  intros Hshape Hr Ha Hc fd.
  destruct Hshape as
    [message Hrej
    | Hrej Hextra
    | Hrej Hnone Hchoice
    | action' Hrej Hnone Hchoice Haction
    | action' q Hrej Hnone Hchoice Hfd
    | q Hrej Hnone Hchoice Hfd fd' a1 Hok1
    | q Hrej Hnone Hchoice Hfd fd' a1 a2 Hok1 Hok2
    | action' q w Hrej Hnone Hchoice Hfd Hw fd' Hrc
    | action' q w Hrej Hnone Hchoice Hfd Hw fd' rc e Hrc];
    try congruence; try lia;
    rewrite Hchoice in Hc; injection Hc as -> ->; cbn [calls].
  - fold fd in Hfd. rewrite <- Hfd.
    split; [eexists; reflexivity |].
    split; [intros Hopen; contradiction | discriminate].
  - split; [eexists; reflexivity |].
    split; [intros _ Hnot; contradiction | discriminate].
  - split; [eexists; reflexivity |].
    split; [intros _ Hnot; contradiction | discriminate].
  - destruct (world_acted_cases h _ _ _ Hw)
      as [(-> & _ & _ & ->) | [(-> & _ & _ & ->) | (-> & _ & _ & _ & _ & ->)]];
      (split; [eexists; reflexivity |]);
      (split; [intros _ Hnot; try contradiction; eexists; reflexivity |]);
      intros _.
    + exists []. reflexivity.
    + exists []. reflexivity.
    + eexists [_; _]. reflexivity.
  - destruct (world_acted_cases h _ _ _ Hw)
      as [(-> & _ & _ & ->) | [(-> & _ & _ & ->) | (-> & _ & _ & _ & _ & ->)]];
      (split; [eexists; reflexivity |]);
      (split; [intros _ Hnot; try contradiction; eexists; reflexivity
              | discriminate]).
Qed.

End Device.

(** ** The properties on the sample hosts *)

Lemma sample_sizes :
  @sizeof_identify_controller sample_headers <= UINT16_MAX /\
  @sizeof_controller_parameters sample_headers <= UINT16_MAX.
Proof. unfold UINT16_MAX. simpl. lia. Qed.


Lemma fatal_exits_witness :
  @produced sample_headers sample_layout host_info
    (snd (sample_run host_info)).
Proof.
  destruct (@fatal_exits sample_headers sample_layout host_info
              (proj1 sample_sizes) (proj2 sample_sizes))
    as (_ & Hdone & _).
  apply Hdone. reflexivity.
Defined.


(** A run of the info action whose report is all on the output stream
    and which then exits with status 1: [close] fails. *)
Lemma fatal_exits_counterexample :
  fst (sample_run host_close_fails) = Some 1 /\
  @produced sample_headers sample_layout host_close_fails
    (snd (sample_run host_close_fails)) /\
  stdout (snd (sample_run host_close_fails))
  = @report_text sample_headers sample_layout sample_id sample_params.
Proof.
  split; [reflexivity |].
  split; vm_compute; reflexivity.
Qed.

(** A run in which the option i is given and accepted and the device is
    opened, and which exits without closing it: the identify command
    fails. *)
Lemma device_opened_counterexample :
  In (opt_i "/dev/sg0") (getopt_returns host_command_fails) /\
  fst (sample_run host_command_fails) = Some 1 /\
  filter is_open (calls (snd (sample_run host_command_fails)))
  = [open_call "/dev/sg0" O_RDWR 3] /\
  filter is_close (calls (snd (sample_run host_command_fails))) = [].
Proof.
  split; [left; reflexivity |].
  split; [reflexivity |]. split; reflexivity.
Qed.

(** * Further properties *)

(** ** The command builder on any command *)

Lemma load_beyond (a : list Z) (i : nat) :
  (List.length a <= i)%nat -> load a i = 0.
Proof. intros Hi. unfold load. apply nth_overflow. exact Hi. Qed.

(** Two arrays of one length with the same elements are the same. *)
Lemma array_ext (a b : list Z) :
  List.length a = List.length b ->
  (forall i, (i < List.length a)%nat -> load a i = load b i) ->
  a = b.
Proof.
  intros Hlen Hload. apply (nth_ext a b 0 0 Hlen). exact Hload.
Qed.

(** What a store leaves at an index that is in the array. *)
Lemma load_store (a : list Z) (i j : nat) (v : Z) :
  (j < List.length a)%nat ->
  load (store a i v) j = if Nat.eqb i j then v else load a j.
Proof.
  intros Hj. destruct (Nat.eqb_spec i j) as [-> | Hne].
  - apply load_store_same. exact Hj.
  - apply load_store_other. exact Hne.
Qed.

Section BuilderFrame.
Context `{hpsa_h}.

Lemma recognized_dec (cmd_num : Z) :
  {recognized cmd_num} + {~ recognized cmd_num}.
Proof.
  unfold recognized.
  destruct (Z.eq_dec cmd_num BMIC_IDENTIFY_CONTROLLER) as [E1 | N1];
    [left; left; exact E1 |].
  destruct (Z.eq_dec cmd_num BMIC_SENSE_CONTROLLER_PARAMETERS) as [E2 | N2];
    [left; right; exact E2 |].
  right. intros [E | E]; contradiction.
Qed.

(** Whenever [fill_cmd] returns, the opcode was a known one, the size
    passed the assertion, and the result is [filled]. *)
Lemma fill_cmd_returns_inv (cmd cmd' : IOCTL_Command_struct)
    (cmd_num buf size : Z) :
  fill_cmd cmd cmd_num buf size = Returns cmd' ->
  recognized cmd_num /\ size <= UINT16_MAX /\
  cmd' = filled cmd cmd_num buf size.
Proof.
  intros Hret. destruct (recognized_dec cmd_num) as [Hop | Hop].
  - split; [exact Hop |]. apply fill_cmd_inv; assumption.
  - rewrite (fill_cmd_unrecognized _ _ _ _ Hop) in Hret. discriminate Hret.
Qed.

(** X1. [fill_cmd] writes descriptor bytes 0, 6, 7 and 8 and nothing else of
    the descriptor block: every other byte, the length of the block and
    the error information of the command are as they were. *)
Theorem fill_cmd_frame (cmd cmd' : IOCTL_Command_struct)
    (cmd_num buf size : Z) :
  fill_cmd cmd cmd_num buf size = Returns cmd' ->
  error_info cmd' = error_info cmd /\
  List.length (CDB (Request cmd')) = List.length (CDB (Request cmd)) /\
  forall i,
    i <> 0%nat -> i <> 6%nat -> i <> 7%nat -> i <> 8%nat ->
    load (CDB (Request cmd')) i = load (CDB (Request cmd)) i.
Proof.
  intros Hret.
  destruct (fill_cmd_returns_inv _ _ _ _ _ Hret) as (_ & _ & ->).
  unfold filled; simpl.
  split; [reflexivity |].
  split; [rewrite !length_store; reflexivity |].
  intros i H0 H6 H7 H8.
  rewrite !load_store_other by congruence. reflexivity.
Qed.

(** X2. The descriptor block of a command built from a zeroed one, byte by
    byte: the read opcode, five zeros, the command, the size high byte
    first, seven zeros. *)
Theorem fill_cmd_wire_image (cmd' : IOCTL_Command_struct)
    (cmd_num buf size : Z) :
  0 <= size ->
  fill_cmd zero_cmd cmd_num buf size = Returns cmd' ->
  CDB (Request cmd')
  = [BMIC_READ; 0; 0; 0; 0; 0; cmd_num; size / 256; size mod 256;
     0; 0; 0; 0; 0; 0; 0] /\
  error_info cmd' = zero_error_info.
Proof.
  intros Hsize Hret.
  destruct (fill_cmd_returns_inv _ _ _ _ _ Hret) as (Hop & Hle & ->).
  unfold filled, zero_cmd, zero_request.
  cbn [Request CDB error_info repeat store].
  unfold u8 at 1 2.
  rewrite (to_unsigned_small 8 BMIC_READ) by apply BMIC_READ_byte.
  rewrite (to_unsigned_small 8 cmd_num) by (apply recognized_byte; exact Hop).
  rewrite high_byte_fits by lia. rewrite low_byte_fits by lia.
  split; reflexivity.
Qed.

(** X3. Building a command over one that [fill_cmd] already built gives what
    building it over the original gives: nothing of the earlier opcode,
    address or size is left. *)
Theorem fill_cmd_overwrites (cmd cmd1 : IOCTL_Command_struct)
    (cmd_num1 buf1 size1 cmd_num2 buf2 size2 : Z) :
  fill_cmd cmd cmd_num1 buf1 size1 = Returns cmd1 ->
  fill_cmd cmd1 cmd_num2 buf2 size2 = fill_cmd cmd cmd_num2 buf2 size2.
Proof.
  intros Hret.
  destruct (fill_cmd_returns_inv _ _ _ _ _ Hret) as (_ & _ & ->).
  destruct (recognized_dec cmd_num2) as [Hop | Hop].
  2:{ rewrite !fill_cmd_unrecognized by exact Hop. reflexivity. }
  destruct (Z.le_gt_cases size2 UINT16_MAX) as [Hle | Hgt].
  2:{ rewrite !fill_cmd_size_assertion by assumption. reflexivity. }
  rewrite !fill_cmd_returns by assumption. f_equal.
  unfold filled; simpl. do 2 f_equal.
  apply array_ext; [rewrite !length_store; reflexivity |].
  intros i Hi. rewrite !length_store in Hi.
  repeat rewrite load_store by (rewrite ?length_store; exact Hi).
  destruct (Nat.eqb 8 i), (Nat.eqb 7 i), (Nat.eqb 0 i), (Nat.eqb 6 i);
    reflexivity.
Qed.

(** X4. The two places that hold the size agree: in every command that
    [fill_cmd] returns, the size in descriptor bytes 7 and 8 is the
    [buf_size] of the command. *)
Theorem fill_cmd_sizes_agree (cmd cmd' : IOCTL_Command_struct)
    (cmd_num buf size : Z) :
  (9 <= List.length (CDB (Request cmd)))%nat ->
  0 <= size ->
  fill_cmd cmd cmd_num buf size = Returns cmd' ->
  cdb_buf_size (CDB (Request cmd')) = buf_size cmd'.
Proof.
  intros Hlen Hsize Hret.
  destruct (fill_cmd_returns_inv _ _ _ _ _ Hret) as (Hop & Hle & ->).
  unfold filled; simpl.
  set (cdb0 := store (store (CDB (Request cmd)) 6 (u8 cmd_num)) 0
                 (u8 BMIC_READ)).
  assert (Hlen0 : (9 <= List.length cdb0)%nat)
    by (unfold cdb0; rewrite !length_store; exact Hlen).
  destruct (set_cdb_buf_size_decodes cdb0 size Hlen0 (conj Hsize Hle))
    as (cdb' & Hcdb & _ & _ & Hdec).
  unfold set_cdb_buf_size in Hcdb.
  destruct (Z.leb_spec size UINT16_MAX) as [_ | Hgt]; [| lia].
  injection Hcdb as <-. rewrite Hdec.
  symmetry. apply to_unsigned_small. unfold UINT16_MAX in Hle. lia.
Qed.

End BuilderFrame.

(** ** The transport on any input *)

Section TransportEffects.
Context `{hpsa_h} `{hpsa_layout} (h : host).

(** [really_exec_cmd] for a path that may be the null pointer. *)
Lemma really_exec_cmd_any_path (path : option string) (fd cmd_num : Z)
    (cmd_name : string) (buf : Z) (data : list Z) (size : Z) (w : world) :
  recognized cmd_num -> size <= UINT16_MAX ->
  let cmd := filled zero_cmd cmd_num buf size in
  let a := sys_ioctl h (calls w) fd cmd data in
  really_exec_cmd h path fd cmd_num cmd_name buf data size w
  = if command_ok a then (Return (ioctl_data a), after_ioctl fd cmd a w)
    else (Exit 1,
          {| stdout := stdout w;
             stderr := stderr w ++ failure_text h (fmt_s path) cmd_name a;
             errno := ioctl_errno a;
             calls := calls (after_ioctl fd cmd a w) |}).
Proof.
  intros Hop Hsize cmd a.
  unfold really_exec_cmd, bind at 1, assert_ok.
  rewrite (fill_cmd_returns _ _ _ _ Hop Hsize).
  unfold bind at 1. fold cmd. fold a.
  unfold command_ok, failure_text.
  destruct (ioctl_rc a =? 0); cbn [andb].
  - unfold bind at 1. unfold ret at 1. unfold bind at 1.
    destruct (u16 (CommandStatus (ioctl_error_info a)) =? 0);
      [reflexivity |].
    unfold bind at 1. rewrite print_cmd_error_eq.
    unfold die_dev. rewrite die_eq.
    cbn [stdout stderr errno calls after_ioctl].
    rewrite append_assoc. reflexivity.
  - unfold bind at 1. unfold die_dev_errno, die_dev. rewrite die_eq.
    cbn [stdout stderr errno calls after_ioctl].
    unfold errno_text. rewrite !append_assoc. reflexivity.
Qed.

(** X5. When the [ioctl] call itself fails, [really_exec_cmd] reports the
    command name, the return value and [errno] with its description in
    one fatal line and exits with status 1; the error information of the
    command is not dumped, whatever command status it carries. *)
Theorem really_exec_cmd_transport_failure (path : option string)
    (fd cmd_num : Z) (cmd_name : string) (buf : Z) (data : list Z)
    (size : Z) (w : world) :
  recognized cmd_num ->
  size <= UINT16_MAX ->
  let cmd := filled zero_cmd cmd_num buf size in
  let a := sys_ioctl h (calls w) fd cmd data in
  ioctl_rc a <> 0 ->
  really_exec_cmd h path fd cmd_num cmd_name buf data size w
  = (Exit 1,
     {| stdout := stdout w;
        stderr :=
          stderr w
          ++ "FATAL ERROR: " ++ fmt_s path
          ++ ": ioctl(CCISS_PASSTHRU) failed with command " ++ cmd_name
          ++ ", rc == " ++ fmt_d (ioctl_rc a) ++ ": "
          ++ fmt_d (ioctl_errno a) ++ " " ++ strerror h (ioctl_errno a)
          ++ nl;
        errno := ioctl_errno a;
        calls := (calls w ++ [ioctl_call fd cmd (ioctl_rc a)])%list |}).
Proof.
  intros Hop Hsize cmd a Hrc.
  rewrite (really_exec_cmd_any_path path fd cmd_num cmd_name buf data size w
             Hop Hsize).
  fold cmd. fold a. unfold command_ok, failure_text.
  destruct (Z.eqb_spec (ioctl_rc a) 0) as [E | _]; [contradiction |].
  cbn [andb after_ioctl calls]. unfold fatal, errno_text.
  rewrite !append_assoc. reflexivity.
Qed.

Lemma really_exec_cmd_oversize_aux (path : option string) (fd cmd_num : Z)
    (cmd_name : string) (buf : Z) (data : list Z) (size : Z) (w : world) :
  recognized cmd_num ->
  UINT16_MAX < size ->
  really_exec_cmd h path fd cmd_num cmd_name buf data size w
  = (Abort "size <= UINT16_MAX",
     {| stdout := stdout w;
        stderr := stderr w ++ assert_diagnostic h "size <= UINT16_MAX";
        errno := errno w; calls := calls w |}).
Proof.
  intros Hop Hsize. unfold really_exec_cmd, bind, assert_ok.
  rewrite (fill_cmd_size_assertion _ _ _ _ Hop Hsize). reflexivity.
Qed.

(** X6. A size above [UINT16_MAX] never reaches the kernel: the
    assertion of [set_cdb_buf_size] stops the process before the [ioctl]
    call; the diagnostic of [assert] on the error stream is all that is
    written. *)
Theorem really_exec_cmd_oversize (path : option string) (fd cmd_num : Z)
    (cmd_name : string) (buf : Z) (data : list Z) (size : Z) (w : world) :
  recognized cmd_num ->
  UINT16_MAX < size ->
  really_exec_cmd h path fd cmd_num cmd_name buf data size w
  = (Abort "size <= UINT16_MAX",
     {| stdout := stdout w;
        stderr := stderr w ++ assert_diagnostic h "size <= UINT16_MAX";
        errno := errno w; calls := calls w |}).
Proof.
  intros Hop Hsize. apply really_exec_cmd_oversize_aux; assumption.
Qed.

(** X7. On every input [really_exec_cmd] leaves the output stream alone
    and makes at most one system call, the [ioctl] on the command built
    from its arguments.  It returns the bytes the kernel left in the
    buffer only after a call that returned 0 with command status 0, and
    then it has written nothing; when it aborts it has made no call and
    the error stream has the diagnostic of the failed assertion and
    nothing else new; and the only exit status it ends the process with
    is 1. *)
Theorem really_exec_cmd_effects (path : option string) (fd cmd_num : Z)
    (cmd_name : string) (buf : Z) (data : list Z) (size : Z) (w : world) :
  let cmd := filled zero_cmd cmd_num buf size in
  let a := sys_ioctl h (calls w) fd cmd data in
  let r := really_exec_cmd h path fd cmd_num cmd_name buf data size w in
  stdout (snd r) = stdout w /\
  (calls (snd r) = calls w \/
   calls (snd r) = (calls w ++ [ioctl_call fd cmd (ioctl_rc a)])%list) /\
  (forall e,
     fst r = Abort e ->
     calls (snd r) = calls w /\
     stderr (snd r) = stderr w ++ assert_diagnostic h e) /\
  (forall data',
     fst r = Return data' ->
     data' = ioctl_data a /\ ioctl_rc a = 0 /\
     u16 (CommandStatus (ioctl_error_info a)) = 0 /\
     stderr (snd r) = stderr w) /\
  (forall s, fst r = Exit s -> s = 1).
Proof.
  intros cmd a r. subst r.
  destruct (recognized_dec cmd_num) as [Hop | Hop].
  2:{ unfold really_exec_cmd, bind, assert_ok.
      rewrite (fill_cmd_unrecognized _ _ _ _ Hop).
      cbn [fst snd stdout stderr calls].
      split; [reflexivity |]. split; [left; reflexivity |].
      split; [intros e E; injection E as <-; auto |].
      split; [discriminate | discriminate]. }
  destruct (Z.le_gt_cases size UINT16_MAX) as [Hle | Hgt].
  2:{ rewrite (really_exec_cmd_oversize_aux path fd cmd_num cmd_name buf data
                 size w Hop Hgt).
      cbn [fst snd stdout stderr calls].
      split; [reflexivity |]. split; [left; reflexivity |].
      split; [intros e E; injection E as <-; auto |].
      split; [discriminate | discriminate]. }
  rewrite (really_exec_cmd_any_path path fd cmd_num cmd_name buf data size w
             Hop Hle).
  fold cmd. fold a. unfold command_ok.
  destruct (Z.eqb_spec (ioctl_rc a) 0) as [Hrc | Hrc];
    [destruct (Z.eqb_spec (u16 (CommandStatus (ioctl_error_info a))) 0)
       as [Hst | Hst] |];
    cbn [andb fst snd stdout stderr calls after_ioctl];
    (split; [reflexivity |]); (split; [right; reflexivity |]);
    (split; [discriminate |]); split; try discriminate.
  - intros data' E. injection E as <-. auto.
  - intros s E. injection E as <-. reflexivity.
  - intros s E. injection E as <-. reflexivity.
Qed.

End TransportEffects.

(** ** The command line *)

Lemma rejected_after_known (rs rest : list getopt_return) :
  Forall known_option rs -> rejected (rs ++ rest) = rejected rest.
Proof.
  induction 1 as [|r rs Hr _ IH]; [reflexivity |]. simpl.
  destruct Hr as [-> | [-> | ->]]; simpl; exact IH.
Qed.

Lemma selected_after_known (rs rest : list getopt_return)
    (action : cli_action) (path : option string) :
  Forall known_option rs ->
  selected (rs ++ rest) action path
  = selected rest (fst (selected rs action path))
      (snd (selected rs action path)).
Proof.
  intros Hknown. revert action path.
  induction Hknown as [|r rs Hr _ IH]; intros action path; [reflexivity |].
  simpl. destruct Hr as [-> | [-> | ->]]; simpl; apply IH.
Qed.

(** The options h and v leave the path as it is. *)
Lemma selected_keeps_path (rs : list getopt_return) (action : cli_action)
    (path : option string) :
  Forall (fun r => opt r = 104 \/ opt r = 118) rs ->
  snd (selected rs action path) = path.
Proof.
  intros Hhv. revert action.
  induction Hhv as [|r rs Hr _ IH]; intros action; [reflexivity |].
  simpl. destruct Hr as [-> | ->]; simpl; apply IH.
Qed.

Lemma help_or_version_known (rs : list getopt_return) :
  Forall (fun r => opt r = 104 \/ opt r = 118) rs -> Forall known_option rs.
Proof.
  apply Forall_impl. intros r [E | E]; unfold known_option; auto.
Qed.

Section CommandLine.
Context `{hpsa_h} `{hpsa_layout} (h : host).

(** A run whose options are rejected. *)
Lemma run_rejected (message : string) :
  rejected (getopt_returns h) = Some message ->
  run h
  = (Some 1,
     {| stdout := ""; stderr := fatal message; errno := 0; calls := [] |}).
Proof.
  intros Hrej. unfold run, main. unfold bind at 1.
  rewrite parse_options_eq, Hrej. reflexivity.
Qed.

(** A run whose options are accepted, up to the opening of the
    device. *)
Lemma run_accepted :
  rejected (getopt_returns h) = None ->
  run h
  = match
      ((if argc h >? optind h then
          die "Invalid argument in command line, try running with -h"
        else ret tt) ;;
       fd <- match snd (choice h) with
             | Some p => open_dev h p
             | None => ret (-1)
             end ;;
       match fst (choice h) with
       | ACTION_HELP => print_help (argv0 h)
       | ACTION_VERSION => print_version
       | ACTION_INFO => print_info h (snd (choice h)) fd
       | ACTION_UNKNOWN => die "No option selected, try running with -h"
       end ;;
       (if fd =? -1 then ret tt else close_dev h (snd (choice h)) fd) ;;
       ret 0)%proc initial_world
    with
    | (Return s, w) => (Some s, w)
    | (Exit s, w) => (Some s, w)
    | (Abort _, w) => (None, w)
    end.
Proof.
  intros Hrej. unfold run, main. unfold bind at 1.
  rewrite parse_options_eq, Hrej. reflexivity.
Qed.

(** X8. The first return of [getopt] that is none of h, v and i ends the
    run: the process exits with status 1 on the message for that return,
    having written nothing else and made no system call, also when an
    option i came before it. *)
Theorem first_rejected_option_is_fatal (rs rest : list getopt_return)
    (r : getopt_return) :
  getopt_returns h = (rs ++ r :: rest)%list ->
  Forall known_option rs ->
  opt r <> -1 ->
  ~ known_option r ->
  let w := snd (run h) in
  fst (run h) = Some 1 /\ stdout w = "" /\ calls w = [] /\
  (opt r = 63 ->
   stderr w = "FATAL ERROR: Unknown command line option: '"
              ++ fmt_c (optopt r) ++ "', try running with -h" ++ nl) /\
  (opt r = 58 ->
   stderr w = "FATAL ERROR: Missing argument for option '"
              ++ fmt_c (optopt r) ++ "', try running with -h" ++ nl) /\
  (opt r <> 63 -> opt r <> 58 ->
   stderr w = "FATAL ERROR: getopt() returned unexpected value: "
              ++ fmt_d (opt r) ++ nl).
Proof.
  intros Hsplit Hknown Hend Hbad w.
  assert (Hrej : exists message,
             rejected (getopt_returns h) = Some message /\
             (opt r = 63 ->
              message = "Unknown command line option: '"
                        ++ fmt_c (optopt r) ++ "', try running with -h") /\
             (opt r = 58 ->
              message = "Missing argument for option '"
                        ++ fmt_c (optopt r) ++ "', try running with -h") /\
             (opt r <> 63 -> opt r <> 58 ->
              message = "getopt() returned unexpected value: "
                        ++ fmt_d (opt r))).
  { rewrite Hsplit, (rejected_after_known _ _ Hknown). simpl.
    unfold known_option in Hbad.
    destruct (Z.eqb_spec (opt r) (-1)) as [E | _]; [contradiction |].
    destruct (Z.eqb_spec (opt r) 104) as [E | _]; [tauto |].
    destruct (Z.eqb_spec (opt r) 118) as [E | _]; [tauto |].
    destruct (Z.eqb_spec (opt r) 105) as [E | _]; [tauto |]. simpl.
    destruct (Z.eqb_spec (opt r) 63) as [E63 | N63].
    - eexists. split; [reflexivity |].
      split; [reflexivity |]. split; [intros E; congruence | tauto].
    - destruct (Z.eqb_spec (opt r) 58) as [E58 | N58].
      + eexists. split; [reflexivity |].
        split; [tauto |]. split; [reflexivity | tauto].
      + eexists. split; [reflexivity |]. tauto. }
  destruct Hrej as (message & Hrej & H63 & H58 & Hother).
  subst w. rewrite (run_rejected message Hrej). cbn [fst snd stdout calls].
  repeat split.
  - intros E. cbn [stderr]. unfold fatal. rewrite (H63 E).
    rewrite !append_assoc. reflexivity.
  - intros E. cbn [stderr]. unfold fatal. rewrite (H58 E).
    rewrite !append_assoc. reflexivity.
  - intros N1 N2. cbn [stderr]. unfold fatal. rewrite (Hother N1 N2).
    rewrite !append_assoc. reflexivity.
Qed.

(** X9. An operand left on the command line is fatal, whatever options came
    before it: the process exits with status 1 on the message about the
    invalid argument, without opening the device of an option i and
    without running the action. *)
Theorem operand_is_fatal :
  Forall known_option (getopt_returns h) ->
  optind h < argc h ->
  run h
  = (Some 1,
     {| stdout := "";
        stderr :=
          "FATAL ERROR: Invalid argument in command line, "
          ++ "try running with -h" ++ nl;
        errno := 0; calls := [] |}).
Proof.
  intros Hknown Hoperand.
  rewrite (run_accepted (known_options_accepted _ Hknown)).
  unfold bind at 1.
  destruct (Z.gtb_spec (argc h) (optind h)) as [_ | Hno]; [| lia].
  reflexivity.
Qed.


End CommandLine.

(** ** The device in a run *)

Section DeviceUse.
Context `{hpsa_h} `{hpsa_layout} (h : host).

(** X11. [print_info] prints all of the report or none of it: when the
    identify command fails the parameters command is never submitted,
    and when either fails the output stream is left as it was and the
    process exits with status 1. *)
Theorem print_info_all_or_nothing (p : string) (fd : Z) (w : world) :
  sizeof_identify_controller <= UINT16_MAX ->
  sizeof_controller_parameters <= UINT16_MAX ->
  let a1 := identify_answer h fd w in
  let a2 := params_answer h fd w in
  let r := print_info h (Some p) fd w in
  (command_ok a1 = false ->
   fst r = Exit 1 /\ stdout (snd r) = stdout w /\
   calls (snd r)
   = (calls w ++ [ioctl_call fd (identify_cmd h) (ioctl_rc a1)])%list) /\
  (command_ok a1 = true -> command_ok a2 = false ->
   fst r = Exit 1 /\ stdout (snd r) = stdout w /\
   calls (snd r)
   = (calls w ++ [ioctl_call fd (identify_cmd h) (ioctl_rc a1);
                  ioctl_call fd (params_cmd h) (ioctl_rc a2)])%list) /\
  (command_ok a1 = true -> command_ok a2 = true ->
   fst r = Return tt /\
   stdout (snd r)
   = stdout w ++ report_text (ioctl_data a1) (ioctl_data a2) /\
   stderr (snd r) = stderr w).
Proof.
  intros Hid Hparams a1 a2 r. subst r.
  rewrite (print_info_eq h p fd w Hid Hparams). fold a1. fold a2.
  split; [| split].
  - intros ->. cbn [fst snd stdout calls after_ioctl]. auto.
  - intros -> ->. cbn [fst snd stdout calls after_ioctl].
    rewrite <- app_assoc. auto.
  - intros -> ->. cbn [fst snd stdout stderr]. auto.
Qed.

Lemma one_open_first (l : list syscall) (c : syscall) (rest : list syscall) :
  l = c :: rest -> is_open c = true ->
  (List.length (filter is_open l) <= 1)%nat ->
  filter is_open l = [c].
Proof.
  intros -> Hc Hone. simpl in *. rewrite Hc in *. simpl in Hone.
  destruct (filter is_open rest); [reflexivity | simpl in Hone; lia].
Qed.

(** X12. Of several options i the last one names the device: the one [open]
    of the run is on its argument, read-write, whatever options h and v
    follow it. *)
Theorem last_option_i_names_the_device (rs rest : list getopt_return)
    (r : getopt_return) :
  sizeof_identify_controller <= UINT16_MAX ->
  sizeof_controller_parameters <= UINT16_MAX ->
  getopt_returns h = (rs ++ r :: rest)%list ->
  Forall known_option rs ->
  opt r = 105 ->
  Forall (fun r' => opt r' = 104 \/ opt r' = 118) rest ->
  argc h <= optind h ->
  snd (choice h) = Some (optarg r) /\
  filter is_open (calls (snd (run h)))
  = [open_call (optarg r) O_RDWR (fst (sys_open h [] (optarg r) O_RDWR))].
Proof.
  intros Hid Hparams Hsplit Hknown Hopt Hrest Hnone.
  assert (Hpath : snd (choice h) = Some (optarg r)).
  { unfold choice. rewrite Hsplit, (selected_after_known _ _ _ _ Hknown).
    simpl. rewrite Hopt. simpl. apply selected_keeps_path. exact Hrest. }
  split; [exact Hpath |].
  assert (Hall : Forall known_option (getopt_returns h)).
  { rewrite Hsplit. apply Forall_app. split; [exact Hknown |].
    constructor; [right; right; exact Hopt |].
    apply help_or_version_known. exact Hrest. }
  pose proof (run_classified h Hid Hparams) as Hshape.
  destruct (choice h) as [action path] eqn:Hchoice.
  cbn [snd] in Hpath. subst path.
  destruct (shape_device h _ _ action (optarg r) Hshape
              (known_options_accepted _ Hall) Hnone Hchoice)
    as ([tail Hfirst] & _ & _).
  destruct (shape_calls_once h _ _ Hshape) as [Hone _].
  exact (one_open_first _ _ _ Hfirst eq_refl Hone).
Qed.

(** X13. A run of the info action that succeeds makes four system calls and
    no other: it opens the device read-write, submits the identify
    command and then the parameters command on the descriptor it got,
    and closes that descriptor.  The report is all of the output stream
    and the error stream is empty. *)
Theorem info_run_calls :
  sizeof_identify_controller <= UINT16_MAX ->
  sizeof_controller_parameters <= UINT16_MAX ->
  succeeds h ->
  fst (choice h) = ACTION_INFO ->
  exists p,
    snd (choice h) = Some p /\
    let fd := fst (sys_open h [] p O_RDWR) in
    let w := snd (run h) in
    fd <> -1 /\
    calls w
    = [open_call p O_RDWR fd;
       ioctl_call fd (identify_cmd h) 0;
       ioctl_call fd (params_cmd h) 0;
       close_call fd 0] /\
    stdout w
    = report_text (ioctl_data (identify_answer h fd (world_opened h p)))
        (ioctl_data (params_answer h fd (world_opened h p))) /\
    stderr w = "".
Proof.
  intros Hid Hparams Hok Haction.
  pose proof (run_classified h Hid Hparams) as Hshape.
  pose proof (proj2 (shape_succeeds h _ _ Hshape) Hok) as Hst.
  destruct Hshape as
    [message Hrej
    | Hrej Hextra
    | Hrej Hnone Hchoice
    | action Hrej Hnone Hchoice Hhv
    | action p Hrej Hnone Hchoice Hfd
    | p Hrej Hnone Hchoice Hfd fd a1 Hok1
    | p Hrej Hnone Hchoice Hfd fd a1 a2 Hok1 Hok2
    | action p w Hrej Hnone Hchoice Hfd Hw fd Hrc
    | action p w Hrej Hnone Hchoice Hfd Hw fd rc e Hrc];
    try discriminate Hst; rewrite Hchoice in Haction; cbn [fst] in Haction.
  - destruct Hhv; congruence.
  - subst action. exists p. rewrite Hchoice. split; [reflexivity |].
    destruct (world_acted_cases h _ _ _ Hw)
      as [(E & _) | [(E & _) | (_ & Hok1 & Hok2 & Hout & Herr & Hcalls)]];
      try discriminate E.
    unfold command_ok in Hok1, Hok2.
    apply andb_prop in Hok1. destruct Hok1 as [Hrc1 _].
    apply andb_prop in Hok2. destruct Hok2 as [Hrc2 _].
    apply Z.eqb_eq in Hrc1. apply Z.eqb_eq in Hrc2.
    cbn [snd calls stdout stderr].
    split; [exact Hfd |].
    split; [rewrite Hcalls, Hrc1, Hrc2; reflexivity |].
    split; assumption.
Qed.

(** X14. Every system call of a run goes with the selected device: an [open]
    is read-write on the selected path; an [ioctl] happens only for the
    info action, on one of its two commands; and every [ioctl] and
    [close] is on the descriptor that [open] returned, which is never
    -1. *)
Theorem calls_follow_the_device (c : syscall) :
  sizeof_identify_controller <= UINT16_MAX ->
  sizeof_controller_parameters <= UINT16_MAX ->
  In c (calls (snd (run h))) ->
  exists p,
    snd (choice h) = Some p /\
    match c with
    | open_call q flags ret =>
        q = p /\ flags = O_RDWR /\ ret = fst (sys_open h [] p O_RDWR)
    | ioctl_call fd cmd _ =>
        fst (choice h) = ACTION_INFO /\
        (cmd = identify_cmd h \/ cmd = params_cmd h) /\
        fd = fst (sys_open h [] p O_RDWR) /\ fd <> -1
    | close_call fd _ =>
        fd = fst (sys_open h [] p O_RDWR) /\ fd <> -1
    end.
Proof.
  intros Hid Hparams Hin.
  pose proof (run_classified h Hid Hparams) as Hshape.
  destruct Hshape as
    [message Hrej
    | Hrej Hextra
    | Hrej Hnone Hchoice
    | action Hrej Hnone Hchoice Hhv
    | action p Hrej Hnone Hchoice Hfd
    | p Hrej Hnone Hchoice Hfd fd a1 Hok1
    | p Hrej Hnone Hchoice Hfd fd a1 a2 Hok1 Hok2
    | action p w Hrej Hnone Hchoice Hfd Hw fd Hrc
    | action p w Hrej Hnone Hchoice Hfd Hw fd rc e Hrc];
    cbn [calls] in Hin; try contradiction;
    exists p; rewrite Hchoice; (split; [reflexivity |]); cbn [fst].
  - destruct Hin as [<- | []]. auto.
  - destruct Hin as [<- | [<- | []]]; auto 6.
  - destruct Hin as [<- | [<- | [<- | []]]]; auto 6.
  - apply in_app_or in Hin. destruct Hin as [Hin | [<- | []]]; [| auto].
    destruct (world_acted_cases h _ _ _ Hw)
      as [(_ & _ & _ & Hc) | [(_ & _ & _ & Hc) | (-> & _ & _ & _ & _ & Hc)]];
      rewrite Hc in Hin.
    + destruct Hin as [<- | []]. auto.
    + destruct Hin as [<- | []]. auto.
    + destruct Hin as [<- | [<- | [<- | []]]]; auto 6.
  - apply in_app_or in Hin. destruct Hin as [Hin | [<- | []]]; [| auto].
    destruct (world_acted_cases h _ _ _ Hw)
      as [(_ & _ & _ & Hc) | [(_ & _ & _ & Hc) | (-> & _ & _ & _ & _ & Hc)]];
      rewrite Hc in Hin.
    + destruct Hin as [<- | []]. auto.
    + destruct Hin as [<- | []]. auto.
    + destruct Hin as [<- | [<- | [<- | []]]]; auto 6.
Qed.

End DeviceUse.

(** ** The device and the action, on what the run does *)

Section DeviceAndAction.
Context `{hpsa_h} `{hpsa_layout} (h : host).

(** What a run with an open device does for each action. *)
Lemma shape_action (st : option Z) (w : world) (action : cli_action)
    (p : string) :
  run_shape h st w ->
  rejected (getopt_returns h) = None -> argc h <= optind h ->
  choice h = (action, Some p) ->
  fst (opened h p) <> -1 ->
  let fd := fst (opened h p) in
  match action with
  | ACTION_HELP =>
      stdout w = "" /\
      (exists rest, stderr w = help_text (argv0 h) ++ rest) /\
      (st = Some 0 -> stderr w = help_text (argv0 h))
  | ACTION_VERSION =>
      stdout w = hpsahba_version ++ nl /\
      (st = Some 0 -> stderr w = "")
  | ACTION_INFO =>
      (exists rc rest,
         calls w
         = open_call p O_RDWR fd :: ioctl_call fd (identify_cmd h) rc :: rest)
      /\
      (st = Some 0 ->
       stdout w
       = report_text (ioctl_data (identify_answer h fd (world_opened h p)))
           (ioctl_data (params_answer h fd (world_opened h p))) /\
       stderr w = "")
  | ACTION_UNKNOWN => False
  end.
Proof.
  intros Hshape Hr Ha Hc Hopen fd.
  destruct Hshape as
    [message Hrej
    | Hrej Hextra
    | Hrej Hnone Hchoice
    | action' Hrej Hnone Hchoice Hhv
    | action' q Hrej Hnone Hchoice Hfd
    | q Hrej Hnone Hchoice Hfd fd' a1 Hok1
    | q Hrej Hnone Hchoice Hfd fd' a1 a2 Hok1 Hok2
    | action' q w Hrej Hnone Hchoice Hfd Hw fd' Hrc
    | action' q w Hrej Hnone Hchoice Hfd Hw fd' rc e Hrc];
    try congruence; try lia;
    rewrite Hchoice in Hc; inversion Hc; subst;
    try (exfalso; apply Hopen; assumption).
  - split; [do 2 eexists; reflexivity | discriminate].
  - split; [do 2 eexists; reflexivity | discriminate].
  - destruct (world_acted_cases h _ _ _ Hw)
      as [(-> & Hout & Herr & Hcalls)
         | [(-> & Hout & Herr & Hcalls)
           | (-> & _ & _ & Hout & Herr & Hcalls)]];
      cbn [stdout stderr calls].
    + split; [exact Hout |]. rewrite Herr.
      split; [exists ""; symmetry; apply append_nil_r | reflexivity].
    + split; [exact Hout | intros _; exact Herr].
    + split; [rewrite Hcalls; do 2 eexists; reflexivity |].
      intros _. split; assumption.
  - destruct (world_acted_cases h _ _ _ Hw)
      as [(-> & Hout & Herr & Hcalls)
         | [(-> & Hout & Herr & Hcalls)
           | (-> & _ & _ & Hout & Herr & Hcalls)]];
      cbn [stdout stderr calls].
    + split; [exact Hout |]. rewrite Herr.
      split; [eexists; reflexivity | discriminate].
    + split; [exact Hout | discriminate].
    + split; [rewrite Hcalls; do 2 eexists; reflexivity | discriminate].
Qed.

(** C10, as the program has it. When [getopt] reports only the options
    h, v and i, at least one of them i, and no operand is left, the
    first thing the process does is open the device named by the last
    option i, read-write, whatever the action is in the end.  When the
    open succeeds and that action is help or version, the one other call
    is the [close] of that descriptor; and a run that exits with status
    0 ends with that [close] returning 0.  The action acted upon is that
    of the last option: after a last h the help text is on the error
    stream and nothing on the output stream, after a last v the version
    is on the output stream, after a last i the identify command is
    submitted on the open descriptor. *)
Theorem device_opened_whatever_action (r : getopt_return) :
  sizeof_identify_controller <= UINT16_MAX ->
  sizeof_controller_parameters <= UINT16_MAX ->
  Forall known_option (getopt_returns h) ->
  argc h <= optind h ->
  In r (getopt_returns h) ->
  opt r = 105 ->
  let st := fst (run h) in
  let w := snd (run h) in
  exists p,
    snd (choice h) = Some p /\
    (exists r', In r' (getopt_returns h) /\ opt r' = 105 /\ optarg r' = p) /\
    (forall rs r' rest,
       getopt_returns h = (rs ++ r' :: rest)%list ->
       opt r' = 105 ->
       Forall (fun o => opt o = 104 \/ opt o = 118) rest ->
       p = optarg r') /\
    let fd := fst (sys_open h [] p O_RDWR) in
    (exists rest, calls w = open_call p O_RDWR fd :: rest) /\
    (fd <> -1 -> fst (choice h) <> ACTION_INFO ->
     exists rc, calls w = [open_call p O_RDWR fd; close_call fd rc]) /\
    (st = Some 0 ->
     exists mid,
       calls w = (open_call p O_RDWR fd :: mid ++ [close_call fd 0])%list) /\
    (forall rs last,
       getopt_returns h = (rs ++ [last])%list ->
       fst (choice h) = action_of last /\
       (fd <> -1 ->
        (opt last = 104 ->
         stdout w = "" /\
         (exists rest, stderr w = help_text (argv0 h) ++ rest) /\
         (st = Some 0 -> stderr w = help_text (argv0 h)) /\
         exists rc, calls w = [open_call p O_RDWR fd; close_call fd rc]) /\
        (opt last = 118 ->
         stdout w = "0.0.0" ++ nl /\
         (st = Some 0 -> stderr w = "") /\
         exists rc, calls w = [open_call p O_RDWR fd; close_call fd rc]) /\
        (opt last = 105 ->
         (exists rc rest,
            calls w
            = open_call p O_RDWR fd
              :: ioctl_call fd (identify_cmd h) rc :: rest) /\
         (st = Some 0 ->
          stdout w
          = report_text
              (ioctl_data (identify_answer h fd (world_opened h p)))
              (ioctl_data (params_answer h fd (world_opened h p))) /\
          stderr w = "")))).
Proof.
  intros Hid Hparams Hknown Hnone Hin Hopt st w.
  pose proof (run_classified h Hid Hparams) as Hshape.
  fold st w in Hshape.
  pose proof (known_options_accepted _ Hknown) as Hrej.
  destruct (selected_path (getopt_returns h) ACTION_UNKNOWN None Hknown)
    as (p & Hp & Horigin).
  { right. exists r. auto. }
  fold (choice h) in Hp.
  exists p. split; [exact Hp |].
  split; [destruct Horigin as [E | Hr]; [discriminate E | exact Hr] |].
  split.
  { intros rs r' rest Hsplit Hopt' Hrest.
    assert (Hrs : Forall known_option rs).
    { rewrite Hsplit in Hknown. apply Forall_app in Hknown. apply Hknown. }
    assert (Hlast : snd (choice h) = Some (optarg r')).
    { unfold choice. rewrite Hsplit, (selected_after_known _ _ _ _ Hrs).
      simpl. rewrite Hopt'. simpl. apply selected_keeps_path. exact Hrest. }
    rewrite Hp in Hlast. injection Hlast as ->. reflexivity. }
  destruct (choice h) as [action path] eqn:Hchoice.
  cbn [snd] in Hp. subst path. cbn [fst].
  destruct (shape_device h st w action p Hshape Hrej Hnone Hchoice)
    as (Hfirst & Honly & Hclosed).
  split; [exact Hfirst |].
  split; [exact Honly |].
  split; [exact Hclosed |].
  intros rs last Hsplit.
  assert (Haction : action = action_of last).
  { change action with (fst (action, Some p)). rewrite <- Hchoice.
    unfold choice. rewrite Hsplit. apply selected_last_action.
    rewrite <- Hsplit. exact Hknown. }
  split; [exact Haction |].
  intros Hopen.
  pose proof (shape_action st w action p Hshape Hrej Hnone Hchoice Hopen)
    as Hacted.
  unfold action_of in Haction.
  split; [| split]; intros Hlast; rewrite Hlast in Haction;
    cbn in Haction; subst action.
  - destruct Hacted as (Hout & Herr & Hdone).
    split; [exact Hout |]. split; [exact Herr |]. split; [exact Hdone |].
    apply Honly; [exact Hopen | discriminate].
  - destruct Hacted as (Hout & Hdone).
    split; [exact Hout |]. split; [exact Hdone |].
    apply Honly; [exact Hopen | discriminate].
  - exact Hacted.
Qed.

End DeviceAndAction.

(** ** String fields *)


Lemma length_field (off len : nat) (record : list Z) :
  List.length (field off len record) = len.
Proof. unfold field. rewrite length_map, length_seq. reflexivity. Qed.



Lemma until_nul_no_nul (bs : list Z) :
  Forall (fun b => b <> 0) bs -> until_nul bs = bs.
Proof.
  induction 1 as [|b t Hb _ IH]; simpl; [reflexivity |].
  destruct (Z.eqb_spec b 0) as [E | _]; [contradiction |].
  rewrite IH. reflexivity.
Qed.

Lemma until_nul_cut (t rest : list Z) :
  Forall (fun b => b <> 0) t -> until_nul (t ++ 0 :: rest) = t.
Proof.
  induction 1 as [|b t Hb _ IH]; simpl; [reflexivity |].
  destruct (Z.eqb_spec b 0) as [E | _]; [contradiction |].
  rewrite IH. reflexivity.
Qed.

Lemma space_not_nul (pad : list Z) :
  forallb isspace pad = true -> Forall (fun b => b <> 0) pad.
Proof.
  induction pad as [|b t IH]; simpl; intros Hpad; constructor.
  - intros ->. discriminate Hpad.
  - apply IH. apply andb_prop in Hpad. apply Hpad.
Qed.

Lemma skip_leading_all_space (str : list Z) :
  skip_leading str = [] -> forallb isspace str = true.
Proof.
  intros Hnil. destruct (skip_leading_split str) as (pre & Hpre & Hspace).
  rewrite Hnil, app_nil_r in Hpre. rewrite Hpre. exact Hspace.
Qed.

Lemma skip_leading_padding (pre str : list Z) :
  forallb isspace pre = true ->
  skip_leading (pre ++ str) = skip_leading str.
Proof.
  induction pre as [|c t IH]; simpl; intros Hpre; [reflexivity |].
  apply andb_prop in Hpre. destruct Hpre as [-> Ht]. apply IH. exact Ht.
Qed.

Lemma skip_leading_app (str tail : list Z) :
  skip_leading str <> [] ->
  skip_leading (str ++ tail) = (skip_leading str ++ tail)%list.
Proof.
  induction str as [|c t IH]; simpl; intros Hne; [contradiction |].
  destruct (isspace c); [apply IH; exact Hne | reflexivity].
Qed.

Lemma strip_trailing_padding (str pad : list Z) :
  forallb isspace pad = true ->
  strip_trailing (List.length (str ++ pad)) (str ++ pad)
  = strip_trailing (List.length str) str.
Proof.
  induction pad as [|c t IH] using rev_ind; intros Hpad.
  - rewrite app_nil_r. reflexivity.
  - rewrite forallb_app in Hpad. apply andb_prop in Hpad.
    destruct Hpad as [Ht Hc]. simpl in Hc. rewrite andb_true_r in Hc.
    rewrite app_assoc, strip_trailing_snoc, Hc. apply IH. exact Ht.
Qed.

Lemma trim_trailing_padding (str pad : list Z) :
  forallb isspace pad = true -> trim (str ++ pad) = trim str.
Proof.
  intros Hpad. unfold trim.
  destruct (skip_leading str) as [|c u] eqn:Hskip.
  - assert (Hall : forallb isspace (str ++ pad) = true).
    { rewrite forallb_app, Hpad, (skip_leading_all_space str Hskip).
      reflexivity. }
    rewrite (skip_leading_spaces _ Hall). reflexivity.
  - rewrite skip_leading_app by (rewrite Hskip; discriminate).
    rewrite Hskip. apply strip_trailing_padding. exact Hpad.
Qed.

(** X15. White space around a string does not change what [trim] returns. *)
Theorem trim_ignores_padding (pre str post : list Z) :
  forallb isspace pre = true ->
  forallb isspace post = true ->
  trim (pre ++ str ++ post) = trim str.
Proof.
  intros Hpre Hpost.
  transitivity (trim (str ++ post)).
  - unfold trim. rewrite skip_leading_padding by exact Hpre. reflexivity.
  - apply trim_trailing_padding. exact Hpost.
Qed.

Section StringFields.
Context `{hpsa_h} `{hpsa_layout}.


(** X17. A field that holds a text without NUL followed by padding prints as
    the trimmed text, when the padding is white space to the end of the
    field and when it starts with a NUL, whatever follows the NUL. *)
Theorem shown_text_of_padded_field (off len : nat) (record t pad : list Z) :
  field off len record = (t ++ pad)%list ->
  Forall (fun b => b <> 0) t ->
  forallb isspace pad = true \/ (exists rest, pad = 0 :: rest) ->
  shown_text off len record = string_of_bytes (trim t).
Proof.
  intros Hfield Ht Hpad. unfold shown_text, strncpy.
  rewrite (firstn_all2 (field off len record))
    by (rewrite length_field; lia).
  rewrite Hfield. f_equal.
  destruct Hpad as [Hspace | [rest ->]].
  - rewrite until_nul_no_nul.
    + apply trim_trailing_padding. exact Hspace.
    + apply Forall_app. split; [exact Ht | apply space_not_nul, Hspace].
  - rewrite until_nul_cut by exact Ht. reflexivity.
Qed.

End StringFields.

Lemma sample_vendor_id :
  @field 0 8 sample_id = (bytes_of_string "ACME" ++ repeat 32 4)%list.
Proof. reflexivity. Qed.

(** ** Runs that end in the middle of the info action *)

Section BrokenRuns.
Context `{hpsa_h} `{hpsa_layout} (h : host).

(** X18. When a command of the info action fails on an open device, the
    process exits with status 1 without calling [close]: the last system
    call of the run is the [ioctl] that failed, and nothing is on the
    output stream. *)
Theorem failed_command_skips_close (p : string) :
  sizeof_identify_controller <= UINT16_MAX ->
  sizeof_controller_parameters <= UINT16_MAX ->
  rejected (getopt_returns h) = None ->
  argc h <= optind h ->
  choice h = (ACTION_INFO, Some p) ->
  fst (sys_open h [] p O_RDWR) <> -1 ->
  world_acted h ACTION_INFO p = None ->
  let w := snd (run h) in
  fst (run h) = Some 1 /\
  stdout w = "" /\
  filter is_close (calls w) = [] /\
  exists before fd cmd rc,
    calls w = (before ++ [ioctl_call fd cmd rc])%list /\
    (rc <> 0 \/
     u16 (CommandStatus
            (ioctl_error_info (sys_ioctl h before fd cmd
               (repeat 0 (Z.to_nat (buf_size cmd)))))) <> 0).
Proof.
  intros Hid Hparams Hr Ha Hc Hopen Hfail w.
  pose proof (run_classified h Hid Hparams) as Hshape. fold w in Hshape.
  assert (Hsize1 : buf_size (identify_cmd h) = sizeof_identify_controller).
  { unfold identify_cmd, filled. cbn [buf_size]. apply to_unsigned_small.
    pose proof sizeof_identify_controller_pos. unfold UINT16_MAX in Hid. lia. }
  assert (Hsize2 : buf_size (params_cmd h) = sizeof_controller_parameters).
  { unfold params_cmd, filled. cbn [buf_size]. apply to_unsigned_small.
    pose proof sizeof_controller_parameters_pos.
    unfold UINT16_MAX in Hparams. lia. }
  assert (Hbad : forall a, command_ok a = false ->
                   ioctl_rc a <> 0 \/
                   u16 (CommandStatus (ioctl_error_info a)) <> 0).
  { intros a Hko. unfold command_ok in Hko.
    destruct (Z.eqb_spec (ioctl_rc a) 0) as [_ | Hrc]; [| left; exact Hrc].
    destruct (Z.eqb_spec (u16 (CommandStatus (ioctl_error_info a))) 0)
      as [_ | Hst]; [discriminate Hko | right; exact Hst]. }
  destruct Hshape as
    [message Hrej
    | Hrej Hextra
    | Hrej Hnone Hchoice
    | action Hrej Hnone Hchoice Hhv
    | action q Hrej Hnone Hchoice Hfd
    | q Hrej Hnone Hchoice Hfd fd a1 Hok1
    | q Hrej Hnone Hchoice Hfd fd a1 a2 Hok1 Hok2
    | action q w0 Hrej Hnone Hchoice Hfd Hw fd Hrc
    | action q w0 Hrej Hnone Hchoice Hfd Hw fd rc e Hrc];
    try congruence; try lia;
    rewrite Hchoice in Hc; inversion Hc; subst;
    try (exfalso; apply Hopen; exact Hfd); try congruence.
  - split; [reflexivity |]. split; [reflexivity |]. split; [reflexivity |].
    exists [open_call p O_RDWR (fst (opened h p))]. do 3 eexists.
    split; [reflexivity |].
    rewrite Hsize1.
    apply (Hbad (identify_answer h (fst (opened h p)) (world_opened h p))).
    assumption.
  - split; [reflexivity |]. split; [reflexivity |]. split; [reflexivity |].
    exists [open_call p O_RDWR (fst (opened h p));
            ioctl_call (fst (opened h p)) (identify_cmd h)
              (ioctl_rc (identify_answer h (fst (opened h p))
                           (world_opened h p)))].
    do 3 eexists. split; [reflexivity |].
    rewrite Hsize2.
    apply (Hbad (params_answer h (fst (opened h p)) (world_opened h p))).
    assumption.
Qed.

End BrokenRuns.

(** ** The further properties on the sample hosts *)

Lemma fill_cmd_frame_witness :
  load (CDB (Request (@filled sample_headers (@zero_cmd sample_headers)
                        0x11 4096 512))) 3
  = load (CDB (Request (@zero_cmd sample_headers))) 3.
Proof.
  apply (@fill_cmd_frame sample_headers (@zero_cmd sample_headers)
           (@filled sample_headers (@zero_cmd sample_headers) 0x11 4096 512)
           0x11 4096 512).
  - reflexivity.
  - discriminate.
  - discriminate.
  - discriminate.
  - discriminate.
Defined.

Lemma fill_cmd_wire_image_witness :
  CDB (Request (@filled sample_headers (@zero_cmd sample_headers)
                  0x64 8192 0x1234))
  = [0x26; 0; 0; 0; 0; 0; 0x64; 0x1234 / 256; 0x1234 mod 256;
     0; 0; 0; 0; 0; 0; 0].
Proof.
  apply (@fill_cmd_wire_image sample_headers
           (@filled sample_headers (@zero_cmd sample_headers) 0x64 8192 0x1234)
           0x64 8192 0x1234).
  - lia.
  - reflexivity.
Defined.

Lemma fill_cmd_overwrites_witness :
  @fill_cmd sample_headers
    (@filled sample_headers (@zero_cmd sample_headers) 0x11 4096 512)
    0x64 8192 96
  = @fill_cmd sample_headers (@zero_cmd sample_headers) 0x64 8192 96.
Proof.
  apply (@fill_cmd_overwrites sample_headers (@zero_cmd sample_headers)
           (@filled sample_headers (@zero_cmd sample_headers) 0x11 4096 512)
           0x11 4096 512 0x64 8192 96).
  reflexivity.
Defined.

Lemma fill_cmd_sizes_agree_witness :
  cdb_buf_size
    (CDB (Request (@filled sample_headers (@zero_cmd sample_headers)
                     0x11 4096 512)))
  = buf_size (@filled sample_headers (@zero_cmd sample_headers) 0x11 4096 512).
Proof.
  apply (@fill_cmd_sizes_agree sample_headers (@zero_cmd sample_headers)
           (@filled sample_headers (@zero_cmd sample_headers) 0x11 4096 512)
           0x11 4096 512).
  - simpl. lia.
  - lia.
  - reflexivity.
Defined.

Lemma really_exec_cmd_transport_failure_witness :
  fst (@really_exec_cmd sample_headers host_ioctl_fails (Some "/dev/sg0") 3
         0x11 "BMIC_IDENTIFY_CONTROLLER" 4096 (repeat 0 64) 64 initial_world)
  = Exit 1.
Proof.
  rewrite (@really_exec_cmd_transport_failure sample_headers host_ioctl_fails
             (Some "/dev/sg0") 3 0x11 "BMIC_IDENTIFY_CONTROLLER" 4096
             (repeat 0 64) 64 initial_world).
  - reflexivity.
  - left. reflexivity.
  - unfold UINT16_MAX. lia.
  - simpl. lia.
Defined.

Lemma really_exec_cmd_oversize_witness :
  @really_exec_cmd sample_headers host_info (Some "/dev/sg0") 3 0x11
    "BMIC_IDENTIFY_CONTROLLER" 4096 [] 65536 initial_world
  = (Abort "size <= UINT16_MAX",
     {| stdout := "";
        stderr := "hpsahba: main.c: Assertion `size <= UINT16_MAX' failed."
                  ++ nl;
        errno := 0; calls := [] |}).
Proof.
  apply (@really_exec_cmd_oversize sample_headers host_info).
  - left. reflexivity.
  - unfold UINT16_MAX. lia.
Defined.

Lemma really_exec_cmd_effects_witness :
  stdout (snd (@really_exec_cmd sample_headers host_command_fails
                 (Some "/dev/sg0") 3 0x11 "BMIC_IDENTIFY_CONTROLLER" 4096
                 (repeat 0 64) 64 initial_world))
  = "".
Proof.
  exact (proj1 (@really_exec_cmd_effects sample_headers host_command_fails
                  (Some "/dev/sg0") 3 0x11 "BMIC_IDENTIFY_CONTROLLER" 4096
                  (repeat 0 64) 64 initial_world)).
Defined.

Lemma first_rejected_option_is_fatal_witness :
  fst (sample_run host_unknown_option) = Some 1 /\
  calls (snd (sample_run host_unknown_option)) = [].
Proof.
  destruct (@first_rejected_option_is_fatal sample_headers sample_layout
              host_unknown_option [opt_i "/dev/sg0"] [] (opt_unknown 120))
    as (Hst & _ & Hcalls & _).
  - reflexivity.
  - constructor; [right; right; reflexivity | constructor].
  - discriminate.
  - intros [E | [E | E]]; discriminate E.
  - split; [exact Hst | exact Hcalls].
Defined.

Lemma operand_is_fatal_witness :
  fst (sample_run host_operand) = Some 1.
Proof.
  unfold sample_run.
  rewrite (@operand_is_fatal sample_headers sample_layout host_operand).
  - reflexivity.
  - constructor; [right; right; reflexivity | constructor].
  - simpl. lia.
Defined.


Lemma print_info_all_or_nothing_witness :
  stdout (snd (@print_info sample_headers sample_layout host_command_fails
                 (Some "/dev/sg0") 3 initial_world))
  = "".
Proof.
  destruct (@print_info_all_or_nothing sample_headers sample_layout
              host_command_fails "/dev/sg0" 3 initial_world
              (proj1 sample_sizes) (proj2 sample_sizes))
    as (Hfirst & _).
  destruct Hfirst as (_ & Hout & _); [reflexivity | exact Hout].
Defined.

Lemma last_option_i_names_the_device_witness :
  filter is_open (calls (snd (sample_run host_two_devices)))
  = [open_call "/dev/sg1" O_RDWR 3].
Proof.
  destruct (@last_option_i_names_the_device sample_headers sample_layout
              host_two_devices [opt_i "/dev/sg0"] [opt_h] (opt_i "/dev/sg1")
              (proj1 sample_sizes) (proj2 sample_sizes))
    as (_ & Hopen).
  - reflexivity.
  - constructor; [right; right; reflexivity | constructor].
  - reflexivity.
  - constructor; [left; reflexivity | constructor].
  - simpl. lia.
  - exact Hopen.
Defined.

Lemma sample_info_succeeds :
  @succeeds sample_headers sample_layout host_info.
Proof.
  unfold succeeds. split; [reflexivity |]. split; [simpl; lia |].
  cbn. split; [discriminate |].
  eexists. split; reflexivity.
Qed.

Lemma info_run_calls_witness :
  exists p,
    snd (choice host_info) = Some p /\
    stderr (snd (sample_run host_info)) = "".
Proof.
  destruct (@info_run_calls sample_headers sample_layout host_info
              (proj1 sample_sizes) (proj2 sample_sizes) sample_info_succeeds)
    as (p & Hp & _ & _ & _ & Herr).
  - reflexivity.
  - exists p. split; [exact Hp | exact Herr].
Defined.

Lemma calls_follow_the_device_witness :
  exists p,
    snd (choice host_info) = Some p /\
    3 = fst (sys_open host_info [] p O_RDWR) /\ 3 <> -1.
Proof.
  exact (@calls_follow_the_device sample_headers sample_layout host_info
           (close_call 3 0) (proj1 sample_sizes) (proj2 sample_sizes)
           (or_intror (or_intror (or_intror (or_introl eq_refl))))).
Defined.

Lemma trim_ignores_padding_witness :
  trim (bytes_of_string "  " ++ bytes_of_string "a b"
        ++ bytes_of_string "   ")%list
  = trim (bytes_of_string "a b").
Proof.
  apply trim_ignores_padding; reflexivity.
Defined.

Lemma shown_text_of_padded_field_witness :
  @shown_text 0 8 sample_id = string_of_bytes (trim (bytes_of_string "ACME")).
Proof.
  apply (@shown_text_of_padded_field 0 8 sample_id (bytes_of_string "ACME")
           (repeat 32 4)).
  - exact sample_vendor_id.
  - repeat constructor; discriminate.
  - left. reflexivity.
Defined.

Lemma failed_command_skips_close_witness :
  fst (sample_run host_command_fails) = Some 1 /\
  filter is_close (calls (snd (sample_run host_command_fails))) = [].
Proof.
  destruct (@failed_command_skips_close sample_headers sample_layout
              host_command_fails "/dev/sg0"
              (proj1 sample_sizes) (proj2 sample_sizes))
    as (Hst & _ & Hclose & _).
  - reflexivity.
  - simpl. lia.
  - reflexivity.
  - discriminate.
  - reflexivity.
  - split; [exact Hst | exact Hclose].
Defined.

Lemma device_opened_whatever_action_witness :
  exists p rc,
    snd (choice host_info_then_help) = Some p /\
    calls (snd (sample_run host_info_then_help))
    = [open_call p O_RDWR 3; close_call 3 rc] /\
    stderr (snd (sample_run host_info_then_help)) = help_text "hpsahba".
Proof.
  destruct (@device_opened_whatever_action sample_headers sample_layout
              host_info_then_help (opt_i "/dev/sg0")
              (proj1 sample_sizes) (proj2 sample_sizes))
    as (p & Hp & _ & _ & _ & _ & _ & Hlast).
  - constructor; [right; right; reflexivity |].
    constructor; [left; reflexivity | constructor].
  - simpl. lia.
  - left. reflexivity.
  - reflexivity.
  - destruct (Hlast [opt_i "/dev/sg0"] opt_h eq_refl) as (_ & Hacted).
    destruct Hacted as (Hhelp & _); [discriminate |].
    destruct (Hhelp eq_refl) as (_ & _ & Hdone & rc & Hcalls).
    exists p, rc. split; [exact Hp |]. split; [exact Hcalls |].
    apply Hdone. reflexivity.
Defined.

